(** * Survey dashboard: the data pipeline of [app.py]

    A shallow embedding of the loader, the column classifier and the
    response aggregator of the survey dashboard, with the properties the
    specification states about them.

    Modelling choices, shared by the whole development:
    - a pandas cell is [option string]: [None] is the missing value (NaN),
      [Some s] a text value;
    - a [Series] is the list of its cells, in row order (nothing below observes
      the index labels);
    - a [DataFrame] is the list of its columns, each a label with its cells,
      in column order; [df[col]] is the lookup of a label;
    - a Python [dict] whose order is observable is an association list, the
      tally of [value_counts] is a finite map from labels to counts;
    - an exception is a value of [exn], carried by the [result] monad. *)

From Stdlib Require Import String Ascii List Bool Arith Lia.
From stdpp Require Import base option list strings gmap fin_maps.

Local Open Scope string_scope.
Local Open Scope list_scope.

(** ** Exceptions and the error monad *)

Inductive exn : Type :=
| KeyError (label : string)
| ValueError (msg : string).

Inductive result (A : Type) : Type :=
| Ok (a : A)
| Raise (e : exn).

Arguments Ok {A} a.
Arguments Raise {A} e.

#[global] Instance result_ret : MRet result := fun A a => Ok a.

#[global] Instance result_bind : MBind result := fun A B k r =>
  match r with
  | Ok a => k a
  | Raise e => Raise e
  end.

(** ** Cells, series, data frames *)

Abbreviation cell := (option string).
Abbreviation Series := (list cell).
Abbreviation DataFrame := (list (string * Series)).

(** [df.columns] *)
Definition columns (df : DataFrame) : list string := map fst df.

(** [df[col]]: the column of that label, [KeyError] when there is none.
    The labels of a table that [read_csv] built are distinct; were a label
    repeated, this lookup takes its first column. *)
Fixpoint getitem (df : DataFrame) (col : string) : result Series :=
  match df with
  | [] => Raise (KeyError col)
  | (name, s) :: df' => if String.eqb name col then Ok s else getitem df' col
  end.

(** [series.dropna()] *)
Definition dropna (s : Series) : Series :=
  filter (fun c : cell => is_Some c) s.

(** [series.unique()]: distinct cells in order of first appearance. *)
Fixpoint unique_from (seen : list cell) (s : Series) : Series :=
  match s with
  | [] => []
  | c :: s' =>
      if decide (c ∈ seen) then unique_from seen s'
      else c :: unique_from (c :: seen) s'
  end.

Definition unique (s : Series) : Series := unique_from [] s.

(** [series.tolist()] of a series without missing values, as text. *)
Definition tolist_str (s : Series) : list string := omap id s.

(** ** The response aggregator *)

Definition DontKnow : string := "Don't Know".

(** The [mapping] dictionary of [group_responses], as [dict.get]. *)
Definition mapping (label : string) : option string :=
  if String.eqb label "Strongly Agree" then Some "Positive"
  else if String.eqb label "Agree" then Some "Positive"
  else if String.eqb label "Strongly Disagree" then Some "Negative"
  else if String.eqb label "Disagree" then Some "Negative"
  else if String.eqb label "Don't Know" then Some "Don't Know"
  else None.

(** [series.map(mapping)]: a label that is not a key, and a missing value,
    become missing. *)
Definition series_map (s : Series) : Series :=
  (fun c : cell => c ≫= mapping) <$> s.

(** [result != "Don't Know"], cell by cell: a missing value differs from
    every text. *)
Definition ne_dont_know (c : cell) : bool :=
  match c with
  | Some l => negb (String.eqb l DontKnow)
  | None => true
  end.

Definition group_responses (series : Series) (group_mode : bool)
    (exclude_dont_know : bool) : Series :=
  let result := if group_mode then series_map series else series in
  if exclude_dont_know
  then List.filter ne_dont_know result
  else result.

(** What a second grouping does to a grouped cell: Don't Know stays, every
    other cell becomes missing. *)
Definition regroup (c : cell) : cell :=
  if bool_decide (c = Some "Don't Know") then c else None.

(** A distribution: the tally of labels that [value_counts] returns. *)
Abbreviation Distribution := (gmap string nat).

(** [distribution.get(label, 0)] *)
Definition get0 (d : Distribution) (label : string) : nat :=
  default 0 (d !! label).

(** [label in distribution.index] *)
Definition in_index (d : Distribution) (label : string) : bool :=
  bool_decide (is_Some (d !! label)).

(** [distribution.sum()] *)
Definition dist_sum (d : Distribution) : nat :=
  map_fold (fun _ n acc => n + acc) 0 d.

(** [distribution.empty] *)
Definition dist_empty (d : Distribution) : bool :=
  bool_decide (d = ∅).

(** [pd.Series(values).value_counts()]: missing values are not counted
    (the default [dropna=True]). *)
Definition count_cell (c : cell) (d : Distribution) : Distribution :=
  match c with
  | Some label => <[label := S (get0 d label)]> d
  | None => d
  end.

Definition value_counts (values : list cell) : Distribution :=
  foldr count_cell ∅ values.

(** One turn of the loop of [calculate_response_distribution]. *)
Definition extend_responses (df : DataFrame) (group_mode exclude_dont_know : bool)
    (acc : result (list cell)) (col : string) : result (list cell) :=
  all_responses ← acc;
  series ← getitem df col;
  let responses := dropna series in
  let grouped := group_responses responses group_mode exclude_dont_know in
  mret (all_responses ++ grouped).

Definition calculate_response_distribution (df : DataFrame)
    (cols : list string) (group_mode exclude_dont_know : bool)
    : result Distribution :=
  all_responses ←
    fold_left (extend_responses df group_mode exclude_dont_know) cols (Ok []);
  match all_responses with
  | [] => mret ∅
  | _ => mret (value_counts all_responses)
  end.

(** ** Row selection, as [main] uses it *)

(** [series.isin(values)]: a missing value is in no list of texts. *)
Definition isin (s : Series) (values : list string) : list bool :=
  map (fun c : cell =>
         match c with
         | Some v => bool_decide (v ∈ values)
         | None => false
         end) s.

(** [series == value] *)
Definition series_eq (s : Series) (value : string) : list bool :=
  map (fun c : cell => bool_decide (c = Some value)) s.

(** [mask1 & mask2] *)
Definition mask_and (m1 m2 : list bool) : list bool := zip_with andb m1 m2.

(** [series[mask]] and [df[mask]]: the rows whose mask is [True]; the mask
    is as long as the columns. *)
Definition select (mask : list bool) (s : Series) : Series :=
  map snd (List.filter fst (zip mask s)).

Definition select_rows (mask : list bool) (df : DataFrame) : DataFrame :=
  map (fun '(name, s) => (name, select mask s)) df.

(** The options of the two sidebar filters (the first statements of
    "Sidebar filters" in [main]): [df['Department'].dropna().unique().tolist()]
    and the same for [Tenure]. *)
Definition filter_options (df : DataFrame) (label : string) : result (list string) :=
  series ← getitem df label;
  mret (tolist_str (unique (dropna series))).

Definition sidebar_filters (df : DataFrame) : result (list string * list string) :=
  departments ← filter_options df "Department";
  tenure_options ← filter_options df "Tenure";
  mret (departments, tenure_options).

(** [filtered_df] of [main]. *)
Definition filter_data (df : DataFrame) (selected_departments selected_tenure : list string)
    : result DataFrame :=
  department ← getitem df "Department";
  tenure ← getitem df "Tenure";
  mret (select_rows (mask_and (isin department selected_departments)
                              (isin tenure selected_tenure)) df).

(** The loop that fills [dept_data] ("Comparison by Department") and the one
    that fills [tenure_data] ("Comparison by Tenure"): for each selected
    value of the segment column, the distribution of its rows, kept when it
    is not empty.  Both call [calculate_response_distribution] with three
    arguments, so that [exclude_dont_know] takes its default, [False]; the
    checkbox value is a parameter here because it is in scope there. *)
Definition segment_distribution (filtered_df : DataFrame) (segment : string)
    (selected_questions : list string) (group_responses_mode exclude_dont_know : bool)
    (value : string) : result Distribution :=
  column ← getitem filtered_df segment;
  let segment_df := select_rows (series_eq column value) filtered_df in
  calculate_response_distribution segment_df selected_questions
    group_responses_mode false.

Fixpoint segment_data (filtered_df : DataFrame) (segment : string)
    (selected_questions : list string) (group_responses_mode exclude_dont_know : bool)
    (selected : list string) : result (list (string * Distribution)) :=
  match selected with
  | [] => mret []
  | value :: rest =>
      dist ← segment_distribution filtered_df segment selected_questions
                group_responses_mode exclude_dont_know value;
      data ← segment_data filtered_df segment selected_questions
                group_responses_mode exclude_dont_know rest;
      mret (if dist_empty dist then data else (value, dist) :: data)
  end.

Definition dept_data (filtered_df : DataFrame) (selected_departments : list string)
    (selected_questions : list string) (group_responses_mode exclude_dont_know : bool)
    : result (list (string * Distribution)) :=
  segment_data filtered_df "Department" selected_questions
    group_responses_mode exclude_dont_know selected_departments.

Definition tenure_data (filtered_df : DataFrame) (selected_tenure : list string)
    (selected_questions : list string) (group_responses_mode exclude_dont_know : bool)
    : result (list (string * Distribution)) :=
  segment_data filtered_df "Tenure" selected_questions
    group_responses_mode exclude_dont_know selected_tenure.

(** A percentage as [main] computes it: either the literal [0] of the
    [else] arm of [x / total * 100 if total > 0 else 0], or the quotient,
    which Python evaluates in floating point and which is kept symbolic. *)
Inductive percentage : Type :=
| PctZero
| PctOf (count total : nat).

Definition pct (count total : nat) : percentage :=
  if Nat.ltb 0 total then PctOf count total else PctZero.

(** "Calculate overall sentiment" in [main]: the metric of the third column,
    for a non-empty question selection. *)
Definition overall_sentiment (group_responses_mode : bool)
    (distribution : Distribution) : percentage :=
  if group_responses_mode && in_index distribution "Positive" then
    let total := dist_sum distribution in
    pct (get0 distribution "Positive") total
  else
    let agree_count := get0 distribution "Strongly Agree" + get0 distribution "Agree" in
    let total := dist_sum distribution in
    pct agree_count total.

(** ** Text operations of the classifier *)

(** [needle in hay], for texts. *)
Fixpoint str_in (needle hay : string) : bool :=
  String.prefix needle hay ||
  match hay with
  | EmptyString => false
  | String _ hay' => str_in needle hay'
  end.

(** [str.lower()], on the characters the loader can produce: it decodes the
    file as cp1252, one byte a character.  The capital letters are A-Z, the
    Latin-1 capitals 192-222 except the multiplication sign 215 (their small
    letter is 32 further), and 138, 140, 142 (16 further) and 159 (255). *)
Definition lower_char (c : ascii) : ascii :=
  let n := nat_of_ascii c in
  if Nat.leb 65 n && Nat.leb n 90 then ascii_of_nat (n + 32)
  else if Nat.leb 192 n && Nat.leb n 222 && negb (Nat.eqb n 215)
       then ascii_of_nat (n + 32)
  else if Nat.eqb n 138 || Nat.eqb n 140 || Nat.eqb n 142
       then ascii_of_nat (n + 16)
  else if Nat.eqb n 159 then ascii_of_nat 255
  else c.

Fixpoint lower (s : string) : string :=
  match s with
  | EmptyString => EmptyString
  | String c s' => String (lower_char c) (lower s')
  end.

(** ** The column classifier *)

Definition likert_values : list string :=
  ["Strongly Agree"; "Agree"; "Disagree"; "Strongly Disagree"; "Don't Know"].

(** [any(val in likert_values for val in unique_vals)] *)
Definition any_likert (unique_vals : Series) : bool :=
  existsb (fun val : cell =>
             match val with
             | Some v => bool_decide (v ∈ likert_values)
             | None => false
             end) unique_vals.

(** One turn of the loop of [get_likert_columns]. *)
Definition likert_step (df : DataFrame) (acc : result (list string)) (col : string)
    : result (list string) :=
  likert_cols ← acc;
  if negb (bool_decide (col ∈ ["Respondent_ID"; "Department"; "Tenure"]))
     && negb (String.prefix "Open-Ended" col)
  then
    series ← getitem df col;
    let unique_vals := unique (dropna series) in
    if any_likert unique_vals
    then mret (likert_cols ++ [col])
    else mret likert_cols
  else mret likert_cols.

Definition get_likert_columns (df : DataFrame) : result (list string) :=
  fold_left (likert_step df) (columns df) (Ok []).

(** The two tests of that loop together, for a column of the table. *)
Definition likert_test (df : DataFrame) (col : string) : bool :=
  negb (bool_decide (col ∈ ["Respondent_ID"; "Department"; "Tenure"]))
  && negb (String.prefix "Open-Ended" col)
  && match getitem df col with
     | Ok series => any_likert (unique (dropna series))
     | Raise _ => false
     end.

(** The [if]/[elif] chain of [categorize_questions]: the key of the list
    that receives the column. *)
Definition category_key (col : string) : string :=
  let col_lower := lower col in
  if str_in "customer" col_lower then "Customer Focused"
  else if str_in "innov" col_lower || str_in "new" col_lower
          || str_in "bold" col_lower then "Innovation"
  else if str_in "excellence" col_lower || str_in "high standard" col_lower
          || str_in "deliver great" col_lower || str_in "pride" col_lower
          || str_in "best" col_lower then "Excellence"
  else if str_in "accountab" col_lower || str_in "own" col_lower
          || (str_in "decision" col_lower && str_in "own" col_lower)
       then "Accountability"
  else if str_in "support" col_lower || str_in "help" col_lower
          || str_in "encourag" col_lower then "Supportive"
  else if str_in "value" col_lower || str_in "culture" col_lower
          || str_in "mission" col_lower || str_in "recommend" col_lower
       then "Culture & Values Awareness"
  else if str_in "growth" col_lower || str_in "change" col_lower
          || str_in "acquisition" col_lower || str_in "anxious" col_lower
          || str_in "expand" col_lower then "Growth & Change"
  else "Other".

(** The [categories] dictionary, in insertion order. *)
Abbreviation categories_dict := (list (string * list string)).

Definition categories_init : categories_dict :=
  [("Customer Focused", []); ("Innovation", []); ("Excellence", []);
   ("Accountability", []); ("Supportive", []);
   ("Culture & Values Awareness", []); ("Growth & Change", []); ("Other", [])].

(** [categories[key].append(col)] *)
Definition dict_append (key col : string) (categories : categories_dict)
    : categories_dict :=
  map (fun '(k, v) => if String.eqb k key then (k, v ++ [col]) else (k, v))
      categories.

(** [{k: v for k, v in categories.items() if v}] *)
Definition remove_empty (categories : categories_dict) : categories_dict :=
  List.filter (fun '(_, v) => match v with [] => false | _ => true end) categories.

Definition categorize_questions (likert_cols : list string) : categories_dict :=
  remove_empty
    (fold_left (fun categories col => dict_append (category_key col) col categories)
               likert_cols categories_init).

(** ** The loader *)

(** [pd.read_csv] is the library's; [load_data] starts here from its two
    results: [df], read with [skiprows=1], and [questions], the column
    labels of the one-row read of the file from its start. *)

(** [df.columns = questions] *)
Definition set_columns (df : DataFrame) (questions : list string) : result DataFrame :=
  if Nat.eqb (length df) (length questions)
  then mret (zip questions (map snd df))
  else Raise (ValueError "Length mismatch").

(** [df.rename(columns={...})]: a label that is a key is replaced. *)
Definition rename_label (label : string) : string :=
  if String.eqb label "Please check the Department or Team you primarily work with."
  then "Department"
  else if String.eqb label "How long have you been with Rocscience?" then "Tenure"
  else if String.eqb label "Respondent ID" then "Respondent_ID"
  else label.

Definition rename (df : DataFrame) : DataFrame :=
  map (fun '(name, s) => (rename_label name, s)) df.

(** The condition of the comprehension that builds [cols_to_drop]. *)
Definition to_drop (col : string) : bool :=
  str_in "Other (please specify)" col || String.eqb col "Response".

(** [df.drop(columns=cols_to_drop, errors='ignore')]: every column whose
    label is in the list goes, a label that names no column is passed over. *)
Definition drop (df : DataFrame) (cols_to_drop : list string) : DataFrame :=
  List.filter (fun '(name, _) => negb (bool_decide (name ∈ cols_to_drop))) df.

Definition load_data (df : DataFrame) (questions : list string) : result DataFrame :=
  df ← set_columns df questions;
  let df := rename df in
  let cols_to_drop := List.filter to_drop (columns df) in
  let df := drop df cols_to_drop in
  mret df.

(** ** The specification's wording, for comparison *)

(** The eight categories, in the order of the specification. *)
Definition spec_categories : list string :=
  ["Customer Focused"; "Innovation"; "Excellence"; "Accountability";
   "Supportive"; "Culture & Values Awareness"; "Growth & Change"; "Other"].

(** The keyword rules of the specification, in priority order; [Other] is
    the category of a text that no rule matches. *)
Definition spec_rules : list (list string * string) :=
  [(["customer"], "Customer Focused");
   (["innov"; "new"; "bold"], "Innovation");
   (["excellence"; "high standard"; "deliver great"; "pride"; "best"], "Excellence");
   (["accountab"; "own"], "Accountability");
   (["support"; "help"; "encourag"], "Supportive");
   (["value"; "culture"; "mission"; "recommend"], "Culture & Values Awareness");
   (["growth"; "change"; "acquisition"; "anxious"; "expand"], "Growth & Change")].

Fixpoint first_match (rules : list (list string * string)) (text : string) : string :=
  match rules with
  | [] => "Other"
  | (keywords, category) :: rules' =>
      if existsb (fun kw => str_in kw text) keywords then category
      else first_match rules' text
  end.

Definition spec_category (col : string) : string :=
  first_match spec_rules (lower col).

(** The output map of the specification: each category with the columns
    assigned to it, in the order of the column list, the categories in
    their fixed order and without those that received no column. *)
Definition spec_assigned (likert_cols : list string) (category : string) : list string :=
  List.filter (fun col => String.eqb (spec_category col) category) likert_cols.

Definition spec_category_map (likert_cols : list string) : categories_dict :=
  List.filter (fun '(_, v) => match v with [] => false | _ => true end)
    (map (fun category => (category, spec_assigned likert_cols category))
         spec_categories).

(** A label that the loader must drop: it contains "Other (please specify)"
    or it is "Response". *)
Definition spec_dropped (label : string) : Prop :=
  (∃ before after, label = before +:+ "Other (please specify)" +:+ after)
  ∨ label = "Response".

(** Contract A: the column is none of the three identifier columns, its
    name does not begin with Open-Ended, and one of its non-missing values
    is one of the five labels. *)
Definition spec_is_likert (df : DataFrame) (col : string) : Prop :=
  (col ∉ ["Respondent_ID"; "Department"; "Tenure"])
  ∧ ¬ (∃ rest, col = "Open-Ended" +:+ rest)
  ∧ ∃ (s : Series) (v : string),
      getitem df col = Ok s ∧ Some v ∈ s ∧ v ∈ likert_values.

(** A response value that the distribution counts: it is not missing, in
    grouped mode it is one of the five labels (any other becomes missing),
    and it is not Don't Know when that is excluded. *)
Definition spec_counted (group_mode exclude_dont_know : bool) (c : cell) : bool :=
  match c with
  | None => false
  | Some label =>
      (if group_mode then bool_decide (label ∈ likert_values) else true)
      && (if exclude_dont_know then negb (String.eqb label "Don't Know") else true)
  end.

(** ** Further definitions for the properties of the aggregator *)

(** [result] is a functor: a function is applied to the value returned, an
    exception passes through. *)
#[global] Instance result_fmap : FMap result := fun A B f r =>
  match r with
  | Ok a => Ok (f a)
  | Raise e => Raise e
  end.

(** The number of cells of a sequence that hold a given label. *)
Definition count_label (label : string) (values : list cell) : nat :=
  length (List.filter (fun c : cell => bool_decide (c = Some label)) values).

(** The sum of the counts of the labels of a list. *)
Definition sum_counts (d : Distribution) (labels : list string) : nat :=
  foldr (fun label acc => get0 d label + acc) 0 labels.

(** ** The question selection of [main] *)

(** [question_categories.get(cat, [])] *)
Definition dict_get (categories : categories_dict) (cat : string) : list string :=
  match List.find (fun '(k, _) => String.eqb k cat) categories with
  | Some (_, v) => v
  | None => []
  end.

(** [list(question_categories.keys())], the options and the default of the
    category selector. *)
Definition dict_keys (categories : categories_dict) : list string :=
  map fst categories.

(** "Get selected question columns": the lists of the selected categories,
    one after the other. *)
Definition selected_questions (question_categories : categories_dict)
    (selected_categories : list string) : list string :=
  fold_left (fun selected cat => selected ++ dict_get question_categories cat)
            selected_categories [].

(** A cell that holds a value, as a test. *)
Definition notna (c : cell) : bool :=
  match c with
  | Some _ => true
  | None => false
  end.

(** ** The display order of the responses *)

(** The list [order] (also [category_order] and [col_order]) that [main]
    builds from the two flags before each chart. *)
Definition response_order (group_responses_mode exclude_dont_know : bool)
    : list string :=
  if group_responses_mode then
    if exclude_dont_know then ["Positive"; "Negative"]
    else ["Positive"; "Don't Know"; "Negative"]
  else
    if exclude_dont_know
    then ["Strongly Agree"; "Agree"; "Disagree"; "Strongly Disagree"]
    else ["Strongly Agree"; "Agree"; "Don't Know"; "Disagree"; "Strongly Disagree"].

(** [dist.reindex([o for o in order if o in dist.index])]: the entries of the
    distribution whose label is in [order], in that order. *)
Definition ordered_distribution (order : list string) (d : Distribution)
    : list (string * nat) :=
  omap (fun o => (fun n => (o, n)) <$> d !! o) order.

(** ** The per-question views of [main] *)

(** [count / total * 100] without a guard: there is no value when the
    divisor is zero. *)
Definition quotient (count total : nat) : option percentage :=
  if Nat.eqb total 0 then None else Some (PctOf count total).

(** The three metrics of "Detailed Question Analysis" for one question:
    the number of responses and the two rates, [None] when the grouped
    series is empty and nothing is shown. *)
Definition question_metrics (filtered_df : DataFrame) (question_to_analyze : string)
    (group_responses_mode exclude_dont_know : bool)
    : result (option (nat * option percentage * option percentage)) :=
  series ← getitem filtered_df question_to_analyze;
  let question_data := dropna series in
  let grouped_data := group_responses question_data group_responses_mode
                        exclude_dont_know in
  match grouped_data with
  | [] => mret None
  | _ =>
      let total_resp := length grouped_data in
      let dist := value_counts grouped_data in
      if group_responses_mode then
        let positive_count := get0 dist "Positive" in
        let negative_count := get0 dist "Negative" in
        mret (Some (total_resp, quotient positive_count total_resp,
                    quotient negative_count total_resp))
      else
        let agree_count := get0 dist "Strongly Agree" + get0 dist "Agree" in
        let disagree_count := get0 dist "Strongly Disagree" + get0 dist "Disagree" in
        mret (Some (total_resp, quotient agree_count total_resp,
                    quotient disagree_count total_resp))
  end.

(** The percentages of one row of the heatmap by question ([row_data]
    without its two text entries), [None] when the grouped series is empty
    and the question gets no row. *)
Definition heatmap_row (filtered_df : DataFrame) (question : string)
    (group_responses_mode exclude_dont_know : bool)
    : result (option (list (string * percentage))) :=
  series ← getitem filtered_df question;
  let question_responses := dropna series in
  let grouped_question := group_responses question_responses group_responses_mode
                            exclude_dont_know in
  match grouped_question with
  | [] => mret None
  | _ =>
      let dist := value_counts grouped_question in
      let total := length grouped_question in
      mret (Some (map (fun resp_type => (resp_type, pct (get0 dist resp_type) total))
                      (response_order group_responses_mode exclude_dont_know)))
  end.

(** The distribution of one question within one department or tenure
    ("Breakdown by Department", "Breakdown by Tenure"), [None] when the
    grouped series is empty. *)
Definition question_segment_distribution (filtered_df : DataFrame)
    (segment question_to_analyze : string)
    (group_responses_mode exclude_dont_know : bool) (value : string)
    : result (option Distribution) :=
  column ← getitem filtered_df segment;
  series ← getitem (select_rows (series_eq column value) filtered_df)
             question_to_analyze;
  let grouped := group_responses (dropna series) group_responses_mode
                   exclude_dont_know in
  match grouped with
  | [] => mret None
  | _ => mret (Some (value_counts grouped))
  end.

(** ** The question search *)

(** "Filter questions based on search": an empty query keeps the list. *)
Definition search_questions (search_query : string) (selected : list string)
    : list string :=
  match search_query with
  | EmptyString => selected
  | _ => List.filter (fun q => str_in (lower search_query) (lower q)) selected
  end.

(** ** [wrap_text] *)

(** The characters at which [str.split()] cuts, among those cp1252 decodes
    to: tab to carriage return, the four separators 28 to 31, the space and
    the no-break space. *)
Definition is_space (c : ascii) : bool :=
  let n := nat_of_ascii c in
  (Nat.leb 9 n && Nat.leb n 13) || (Nat.leb 28 n && Nat.leb n 31)
  || Nat.eqb n 32 || Nat.eqb n 160.

(** [text.split()]: the maximal runs of other characters. *)
Fixpoint split_from (current : string) (text : string) : list string :=
  match text with
  | EmptyString =>
      match current with
      | EmptyString => []
      | _ => [current]
      end
  | String c rest =>
      if is_space c then
        match current with
        | EmptyString => split_from EmptyString rest
        | _ => current :: split_from EmptyString rest
        end
      else split_from (current +:+ String c EmptyString) rest
  end.

Definition split (text : string) : list string := split_from EmptyString text.

(** A text without any of those characters. *)
Fixpoint no_space (text : string) : bool :=
  match text with
  | EmptyString => true
  | String c rest => negb (is_space c) && no_space rest
  end.

(** [sep.join(parts)] *)
Fixpoint str_join (sep : string) (parts : list string) : string :=
  match parts with
  | [] => EmptyString
  | [part] => part
  | part :: parts' => part +:+ sep +:+ str_join sep parts'
  end.

Record wrap_state : Type := {
  lines : list string;
  current_line : list string;
  current_length : nat
}.

(** [lines.append(' '.join(current_line))] under [if current_line]. *)
Definition flush_line (lines : list string) (current_line : list string)
    : list string :=
  match current_line with
  | [] => lines
  | _ => lines ++ [str_join " " current_line]
  end.

(** One turn of the loop over the words. *)
Definition wrap_step (max_len : nat) (st : wrap_state) (word : string) : wrap_state :=
  if Nat.leb (current_length st + String.length word + 1) max_len then
    {| lines := lines st;
       current_line := current_line st ++ [word];
       current_length := current_length st + (String.length word + 1) |}
  else
    {| lines := flush_line (lines st) (current_line st);
       current_line := [word];
       current_length := String.length word |}.

Definition wrap_text (text : string) (max_len : nat) : string :=
  let words := split text in
  let st := fold_left (wrap_step max_len) words
              {| lines := []; current_line := []; current_length := 0 |} in
  str_join "<br>" (flush_line (lines st) (current_line st)).

(** A group of words fits a line when it is a single word or its text is
    no longer than the limit. *)
Definition fits (max_len : nat) (group : list string) : Prop :=
  length group = 1 ∨ (String.length (str_join " " group) ≤ max_len)%nat.

(** The loop invariant of [wrap_text], after the words [consumed]: the
    lines are the texts of groups of words that, with the current line,
    make up the words consumed. *)
Definition wrap_inv (max_len : nat) (consumed : list string) (st : wrap_state) : Prop :=
  ∃ groups : list (list string),
    lines st = map (str_join " ") groups
    ∧ concat groups ++ current_line st = consumed
    ∧ Forall (fun g => g ≠ []) groups
    ∧ Forall (fits max_len) groups
    ∧ (String.length (str_join " " (current_line st)) ≤ current_length st)%nat
    ∧ (2 ≤ length (current_line st) → current_length st ≤ max_len)%nat.

(** ** The password gate *)

(** The two keys of [st.session_state] that the gate uses. *)
Record session_state : Type := {
  ss_password : option string;
  ss_password_correct : option bool
}.

(** The callback [password_entered]; [secret] is [st.secrets["password"]]. *)
Definition password_entered (secret : string) (st : session_state)
    : result session_state :=
  match ss_password st with
  | None => Raise (KeyError "password")
  | Some password =>
      if String.eqb password secret
      then Ok {| ss_password := None; ss_password_correct := Some true |}
      else Ok {| ss_password := ss_password st; ss_password_correct := Some false |}
  end.

(** The value that [check_password] returns. *)
Definition check_password (st : session_state) : bool :=
  match ss_password_correct st with
  | None => false
  | Some password_correct => password_correct
  end.

(** What the user can do: type a password in the input (the widget stores
    the text under its key ["password"] and calls [password_entered]), or
    press the logout button of [main]. *)
Inductive event : Type :=
| Enter (password : string)
| Logout.

Definition handle (secret : string) (st : session_state) (ev : event)
    : result session_state :=
  match ev with
  | Enter password =>
      password_entered secret
        {| ss_password := Some password;
           ss_password_correct := ss_password_correct st |}
  | Logout =>
      Ok {| ss_password := ss_password st; ss_password_correct := Some false |}
  end.

Definition run (secret : string) (events : list event) (st : session_state)
    : result session_state :=
  fold_left (fun r ev => st ← r; handle secret st ev) events (Ok st).

(** A new session. *)
Definition new_session : session_state :=
  {| ss_password := None; ss_password_correct := None |}.

(** ** The filter widgets of the sidebar *)

(** A widget that [main] puts in the sidebar:
    [st.sidebar.multiselect(label, options=..., default=...)]. *)
Inductive widget : Type :=
| Multiselect (label : string) (options default : list string).

(** The statements under "Sidebar filters" in [main], in their order: the
    lookup of [Department], the Department selector, the lookup of [Tenure],
    the Tenure selector.  The result is the list of the widgets put in the
    sidebar until the section ends or raises, with the outcome of the
    section: the two option lists, or the exception. *)
Definition render_sidebar_filters (df : DataFrame)
    : list widget * result (list string * list string) :=
  match filter_options df "Department" with
  | Raise e => ([], Raise e)
  | Ok departments =>
      let department_filter := Multiselect "Department" departments departments in
      match filter_options df "Tenure" with
      | Raise e => ([department_filter], Raise e)
      | Ok tenure_options =>
          ([department_filter; Multiselect "Tenure" tenure_options tenure_options],
           Ok (departments, tenure_options))
      end
  end.

(** ** Tables of the scenarios *)

Definition scenario_df : DataFrame :=
  [("Department", [Some "Eng"; Some "Eng"; Some "Ops"; Some "Ops"]);
   ("Tenure", [Some "1y"; Some "2y"; Some "1y"; Some "2y"]);
   ("Our customers come first",
    [Some "Agree"; Some "Agree"; Some "Disagree"; Some "Don't Know"])].

(** A table whose two question columns hold nothing that grouped mode with
    the exclusion counts. *)
Definition empty_answers_df : DataFrame :=
  [("Department", [Some "Eng"; Some "Ops"]);
   ("Q1", [None; Some "Don't Know"]);
   ("Q2", [Some "Maybe"; None])].

(** The two reads of a small export: the frame read with [skiprows=1]
    (labelled by the second row) and the labels of the first row. *)
Definition raw_df : DataFrame :=
  [("Unnamed: 0", [Some "1"; Some "2"]);
   ("Response", [Some "Eng"; Some "Ops"]);
   ("Other (please specify)", [None; Some "Field"]);
   ("Response.1", [Some "1y"; None]);
   ("Response.2", [Some "Agree"; Some "Disagree"]);
   ("Response.3", [Some "x"; Some "y"])].

Definition raw_questions : list string :=
  ["Respondent ID";
   "Please check the Department or Team you primarily work with.";
   "Other (please specify) - Something";
   "How long have you been with Rocscience?";
   "Our customers come first";
   "Response"].

(** Tables without one of the two segment columns. *)
Definition no_department_df : DataFrame :=
  [("Respondent_ID", [Some "1"; Some "2"]);
   ("Tenure", [Some "1y"; Some "2y"]);
   ("Our customers come first", [Some "Agree"; Some "Disagree"])].

Definition no_tenure_df : DataFrame :=
  [("Respondent_ID", [Some "1"; Some "2"]);
   ("Department", [Some "Eng"; Some "Ops"]);
   ("Our customers come first", [Some "Agree"; Some "Disagree"])].

(** A table in which a respondent has no department and another no
    tenure. *)
Definition missing_segment_df : DataFrame :=
  [("Department", [Some "Eng"; None; Some "Ops"]);
   ("Tenure", [Some "1y"; Some "2y"; None]);
   ("Our customers come first", [Some "Agree"; Some "Agree"; Some "Disagree"])].

(** A question column with a response outside the five labels. *)
Definition stray_df : DataFrame :=
  [("Department", [Some "Eng"; Some "Eng"; Some "Ops"]);
   ("Q", [Some "Agree"; Some "Maybe"; None])].

(** * Properties *)

(** ** Scenarios of the specification *)

Example group_responses_B :
  group_responses [Some "Agree"; Some "Agree"; Some "Disagree"; Some "Don't Know"]
    true false
  = [Some "Positive"; Some "Positive"; Some "Negative"; Some "Don't Know"].
Proof. reflexivity. Qed.

Example group_responses_C :
  group_responses [Some "Agree"; Some "Agree"; Some "Disagree"; Some "Don't Know"]
    true true
  = [Some "Positive"; Some "Positive"; Some "Negative"].
Proof. reflexivity. Qed.

Example scenario_A :
  calculate_response_distribution scenario_df ["Our customers come first"] false false
  = Ok {[ "Agree" := 2; "Disagree" := 1; "Don't Know" := 1 ]}.
Proof. vm_compute. reflexivity. Qed.

Example scenario_B :
  calculate_response_distribution scenario_df ["Our customers come first"] true false
  = Ok {[ "Positive" := 2; "Negative" := 1; "Don't Know" := 1 ]}.
Proof. vm_compute. reflexivity. Qed.

Example scenario_C :
  calculate_response_distribution scenario_df ["Our customers come first"] true true
  = Ok {[ "Positive" := 2; "Negative" := 1 ]}
  ∧ dist_sum {[ "Positive" := 2; "Negative" := 1 ]} = 3.
Proof. split; vm_compute; reflexivity. Qed.

Example scenario_D :
  (filtered_df ← filter_data scenario_df [] ["1y"; "2y"];
   calculate_response_distribution filtered_df ["Our customers come first"] false false)
  = Ok ∅.
Proof. vm_compute. reflexivity. Qed.

(** ** Grouping *)

Lemma mapping_known (label : string) :
  label ∈ likert_values →
  mapping label = Some (if bool_decide (label ∈ ["Strongly Agree"; "Agree"])
                        then "Positive"
                        else if bool_decide (label ∈ ["Strongly Disagree"; "Disagree"])
                             then "Negative" else "Don't Know").
Proof.
  unfold likert_values. rewrite !elem_of_cons, elem_of_nil.
  intros [-> | [-> | [-> | [-> | [-> | []]]]]]; reflexivity.
Qed.

Lemma mapping_unknown (label : string) :
  label ∉ likert_values → mapping label = None.
Proof.
  unfold likert_values, mapping. rewrite !not_elem_of_cons.
  intros (H1 & H2 & H3 & H4 & H5 & _).
  apply String.eqb_neq in H1, H2, H3, H4, H5.
  by rewrite H1, H2, H3, H4, H5.
Qed.

Lemma mapping_Some (label r : string) :
  mapping label = Some r → label ∈ likert_values.
Proof.
  intros H. destruct (decide (label ∈ likert_values)) as [|Hn]; [done|].
  by rewrite (mapping_unknown _ Hn) in H.
Qed.

Lemma ne_dont_know_spec (c : cell) :
  ne_dont_know c = true ↔ c ≠ Some "Don't Know".
Proof.
  destruct c as [l|]; simpl; [|done].
  rewrite negb_true_iff, String.eqb_neq. unfold DontKnow.
  split; [congruence|]. intros H ->. by apply H.
Qed.

Lemma group_responses_exclude (series : Series) (group_mode : bool) :
  group_responses series group_mode true
  = List.filter ne_dont_know (group_responses series group_mode false).
Proof. reflexivity. Qed.

Lemma grouped_keep_eq (series : Series) :
  group_responses series true false = (fun c : cell => c ≫= mapping) <$> series.
Proof. reflexivity. Qed.

Lemma group_responses_no_dont_know (series : Series) (group_mode : bool) :
  Some "Don't Know" ∉ group_responses series group_mode true.
Proof.
  rewrite group_responses_exclude, list_elem_of_In, filter_In.
  intros [_ H]. by apply ne_dont_know_spec in H.
Qed.

(** C2. In grouped mode [group_responses] keeps the length and the positions
    of the sequence when Don't Know is kept: Strongly Agree and Agree become
    Positive, Strongly Disagree and Disagree become Negative, Don't Know
    stays, and every other label (and a missing value) becomes missing;
    with the exclusion the same sequence is returned without its Don't Know
    entries. *)
Theorem group_responses_grouped (series : Series) (i : nat) (c : cell) :
  series !! i = Some c →
  ∃ r : cell,
    group_responses series true false !! i = Some r
    ∧ (c = Some "Strongly Agree" ∨ c = Some "Agree" → r = Some "Positive")
    ∧ (c = Some "Strongly Disagree" ∨ c = Some "Disagree" → r = Some "Negative")
    ∧ (c = Some "Don't Know" → r = Some "Don't Know")
    ∧ (∀ label, c = Some label → label ∉ likert_values → r = None)
    ∧ (c = None → r = None)
    ∧ length (group_responses series true false) = length series
    ∧ group_responses series true true
      = List.filter (fun x : cell => negb (bool_decide (x = Some "Don't Know")))
                    (group_responses series true false).
Proof.
  intros Hi. exists (c ≫= mapping).
  rewrite group_responses_exclude, grouped_keep_eq.
  split; [by rewrite list_lookup_fmap, Hi|].
  repeat split.
  - by intros [-> | ->].
  - by intros [-> | ->].
  - by intros ->.
  - intros label -> Hn. simpl. by apply mapping_unknown.
  - by intros ->.
  - by rewrite length_fmap.
  - apply filter_ext. intros x. destruct x as [l|]; simpl; [|done].
    unfold DontKnow. destruct (String.eqb_spec l "Don't Know") as [->|Hn].
    + by rewrite bool_decide_eq_true_2.
    + rewrite bool_decide_eq_false_2; [done|congruence].
Qed.

Lemma group_responses_grouped_witness :
  ∃ r : cell,
    group_responses [Some "Agree"; Some "Maybe"; Some "Don't Know"] true false !! 1
    = Some r
    ∧ (Some "Maybe" = Some "Strongly Agree" ∨ Some "Maybe" = Some "Agree"
       → r = Some "Positive")
    ∧ (Some "Maybe" = Some "Strongly Disagree" ∨ Some "Maybe" = Some "Disagree"
       → r = Some "Negative")
    ∧ (Some "Maybe" = Some "Don't Know" → r = Some "Don't Know")
    ∧ (∀ label, Some "Maybe" = Some label → label ∉ likert_values → r = None)
    ∧ (Some "Maybe" = None → r = None)
    ∧ length (group_responses [Some "Agree"; Some "Maybe"; Some "Don't Know"]
                true false) = 3
    ∧ group_responses [Some "Agree"; Some "Maybe"; Some "Don't Know"] true true
      = List.filter (fun x : cell => negb (bool_decide (x = Some "Don't Know")))
          (group_responses [Some "Agree"; Some "Maybe"; Some "Don't Know"]
             true false).
Proof.
  apply (group_responses_grouped
           [Some "Agree"; Some "Maybe"; Some "Don't Know"] 1 (Some "Maybe")).
  reflexivity.
Defined.

Lemma mapping_twice (c : cell) :
  (c ≫= mapping) ≫= mapping = regroup (c ≫= mapping).
Proof.
  destruct c as [label|]; [|reflexivity]. simpl.
  destruct (decide (label ∈ likert_values)) as [Hin|Hn].
  - revert Hin. unfold likert_values. rewrite !elem_of_cons, elem_of_nil.
    intros [-> | [-> | [-> | [-> | [-> | []]]]]]; reflexivity.
  - by rewrite (mapping_unknown _ Hn).
Qed.

Lemma regroup_kept (c : cell) :
  ne_dont_know c = true → regroup c = None.
Proof.
  intros H%ne_dont_know_spec. unfold regroup.
  by rewrite bool_decide_eq_false_2.
Qed.

Lemma filter_ne_dont_know_idemp (s : Series) :
  List.filter ne_dont_know (List.filter ne_dont_know s) = List.filter ne_dont_know s.
Proof.
  induction s as [|c s IH]; [reflexivity|]. simpl.
  destruct (ne_dont_know c) eqn:E; simpl; [|exact IH].
  by rewrite E, IH.
Qed.

Lemma regroup_excluded (s : Series) :
  List.filter ne_dont_know
    ((fun c : cell => c ≫= mapping)
       <$> List.filter ne_dont_know ((fun c : cell => c ≫= mapping) <$> s))
  = regroup <$> List.filter ne_dont_know ((fun c : cell => c ≫= mapping) <$> s).
Proof.
  induction s as [|c s IH]; [reflexivity|].
  rewrite fmap_cons. cbn [List.filter].
  destruct (ne_dont_know (c ≫= mapping)) eqn:E; [|exact IH].
  rewrite !fmap_cons, mapping_twice, (regroup_kept _ E).
  cbn [List.filter ne_dont_know]. by rewrite IH.
Qed.

(** C6, as the code has it. Without grouping a second call changes
    nothing, whatever the exclusion flag; in grouped mode a second call
    keeps the Don't Know entries of the first result and turns each other
    entry (Positive, Negative) into a missing value. *)
Theorem group_responses_twice (series : Series) (exclude_dont_know : bool) :
  group_responses (group_responses series false exclude_dont_know)
    false exclude_dont_know
  = group_responses series false exclude_dont_know
  ∧ group_responses (group_responses series true exclude_dont_know)
      true exclude_dont_know
    = regroup <$> group_responses series true exclude_dont_know.
Proof.
  split.
  - destruct exclude_dont_know; [|reflexivity].
    unfold group_responses. apply filter_ne_dont_know_idemp.
  - destruct exclude_dont_know.
    + unfold group_responses, series_map. apply regroup_excluded.
    + rewrite !grouped_keep_eq, <- !list_fmap_compose.
      apply list_fmap_ext. intros _ c _. simpl. apply mapping_twice.
Qed.

(** C6 as stated fails: an Agree is Positive after one grouping and missing
    after two. *)
Lemma group_responses_not_idempotent :
  group_responses [Some "Agree"] true false = [Some "Positive"]
  ∧ group_responses (group_responses [Some "Agree"] true false) true false = [None]
  ∧ ¬ (∀ (series : Series) (group_mode exclude_dont_know : bool),
         group_responses (group_responses series group_mode exclude_dont_know)
           group_mode exclude_dont_know
         = group_responses series group_mode exclude_dont_know).
Proof.
  split; [reflexivity|]. split; [reflexivity|].
  intros H. specialize (H [Some "Agree"] true false). discriminate H.
Qed.

(** ** Tallies *)

Lemma dist_sum_empty : dist_sum ∅ = 0.
Proof. apply map_fold_empty. Qed.

Lemma dist_sum_insert_fresh (d : Distribution) (k : string) (n : nat) :
  d !! k = None → dist_sum (<[k := n]> d) = n + dist_sum d.
Proof.
  intros Hk. unfold dist_sum.
  rewrite map_fold_insert_L; [done | intros; lia | done].
Qed.

Lemma dist_sum_delete (d : Distribution) (k : string) (n : nat) :
  d !! k = Some n → dist_sum d = n + dist_sum (delete k d).
Proof.
  intros Hk. unfold dist_sum.
  rewrite (map_fold_delete_L _ _ k n d); [done | intros; lia | done].
Qed.

Lemma dist_sum_count (d : Distribution) (k : string) :
  dist_sum (<[k := S (get0 d k)]> d) = S (dist_sum d).
Proof.
  unfold get0. destruct (d !! k) as [n|] eqn:Hk; simpl.
  - rewrite <- insert_delete_eq, dist_sum_insert_fresh by apply lookup_delete_eq.
    rewrite (dist_sum_delete d k n Hk). lia.
  - by rewrite dist_sum_insert_fresh.
Qed.

Lemma dist_sum_value_counts (values : list cell) :
  dist_sum (value_counts values) = length (tolist_str values).
Proof.
  induction values as [|[label|] values IH]; simpl.
  - apply dist_sum_empty.
  - by rewrite dist_sum_count, IH.
  - exact IH.
Qed.

Lemma value_counts_missing (values : list cell) :
  tolist_str values = [] → value_counts values = ∅.
Proof.
  induction values as [|[label|] values IH]; simpl; [done|done|exact IH].
Qed.

(** ** The pooled responses *)

Section Pool.
Variable df : DataFrame.
Variables group_mode exclude_dont_know : bool.

Local Abbreviation grouped :=
  (fun s : Series => group_responses (dropna s) group_mode exclude_dont_know).
Local Abbreviation extend :=
  (extend_responses df group_mode exclude_dont_know).

Lemma extend_responses_raise (cols : list string) (e : exn) :
  fold_left extend cols (Raise e) = Raise e.
Proof. induction cols as [|col cols IH]; [reflexivity|exact IH]. Qed.

Lemma fold_extend_responses (cols : list string) (sers : list Series)
    (acc : list cell) :
  Forall2 (fun col s => getitem df col = Ok s) cols sers →
  fold_left extend cols (Ok acc) = Ok (acc ++ concat (grouped <$> sers)).
Proof.
  intros H. revert acc.
  induction H as [|col s cols sers Hcol _ IH]; intros acc; cbn [fold_left].
  - by rewrite app_nil_r.
  - replace (extend (Ok acc) col) with (Ok (A:=list cell) (acc ++ grouped s))
      by (unfold extend_responses; simpl; by rewrite Hcol).
    rewrite IH, fmap_cons. cbn [concat]. by rewrite app_assoc.
Qed.

Lemma fold_extend_responses_missing (cols : list string) (col : string)
    (acc : result (list cell)) :
  col ∈ cols → getitem df col = Raise (KeyError col) →
  ∃ e, fold_left extend cols acc = Raise e.
Proof.
  intros Hin Hcol. revert acc.
  induction cols as [|c cols IH]; intros acc; [by apply elem_of_nil in Hin|].
  apply elem_of_cons in Hin as [<- | Hin]; cbn [fold_left].
  - destruct acc as [a|e].
    + replace (extend (Ok a) col) with (Raise (A:=list cell) (KeyError col))
        by (unfold extend_responses; simpl; by rewrite Hcol).
      eexists. apply extend_responses_raise.
    + eexists. apply extend_responses_raise.
  - by apply IH.
Qed.

Lemma counted_column (s : Series) :
  length (tolist_str (grouped s))
  = length (List.filter (spec_counted group_mode exclude_dont_know) s).
Proof.
  unfold dropna, tolist_str.
  induction s as [|c s IH];
    [by destruct group_mode, exclude_dont_know|].
  destruct c as [label|].
  - rewrite filter_cons_True by (by eexists).
    revert IH. unfold group_responses, series_map.
    destruct group_mode, exclude_dont_know; rewrite ?fmap_cons;
      cbn [List.filter spec_counted ne_dont_know]; intros IH.
    + destruct (decide (label ∈ likert_values)) as [Hin|Hn].
      * rewrite bool_decide_eq_true_2 by done. revert Hin. unfold likert_values.
        rewrite !elem_of_cons, elem_of_nil.
        intros [-> | [-> | [-> | [-> | [-> | []]]]]]; simpl;
          first [exact IH | f_equal; exact IH].
      * rewrite bool_decide_eq_false_2 by done.
        cbn [mbind option_bind]. rewrite (mapping_unknown _ Hn). exact IH.
    + destruct (decide (label ∈ likert_values)) as [Hin|Hn].
      * rewrite bool_decide_eq_true_2 by done.
        cbn [mbind option_bind]. rewrite (mapping_known _ Hin).
        simpl. f_equal. exact IH.
      * rewrite bool_decide_eq_false_2 by done.
        cbn [mbind option_bind]. rewrite (mapping_unknown _ Hn). exact IH.
    + unfold DontKnow. destruct (String.eqb label "Don't Know"); simpl;
        first [exact IH | f_equal; exact IH].
    + simpl. f_equal. exact IH.
  - rewrite filter_cons_False by (by intros [? ?]).
    rewrite IH. by destruct group_mode, exclude_dont_know.
Qed.

Lemma counted_pool (sers : list Series) :
  length (tolist_str (concat (grouped <$> sers)))
  = length (List.filter (spec_counted group_mode exclude_dont_know) (concat sers)).
Proof.
  induction sers as [|s sers IH]; [reflexivity|].
  rewrite fmap_cons. cbn [concat]. unfold tolist_str in *.
  rewrite omap_app, List.filter_app, !length_app, IH.
  f_equal. apply counted_column.
Qed.

Lemma calculate_response_distribution_pool (cols : list string)
    (sers : list Series) :
  Forall2 (fun col s => getitem df col = Ok s) cols sers →
  calculate_response_distribution df cols group_mode exclude_dont_know
  = Ok (value_counts (concat (grouped <$> sers))).
Proof.
  intros H. unfold calculate_response_distribution.
  rewrite (fold_extend_responses cols sers [] H). simpl.
  by destruct (concat _).
Qed.
End Pool.

(** C1. Conservation: when the selected columns are columns of the table,
    [calculate_response_distribution] returns a distribution whose counts
    add up to the number of cells of those columns that are not missing and
    pass the filters (in grouped mode a label outside the five becomes
    missing; with the exclusion Don't Know is dropped). A column selected
    twice contributes twice. *)
Theorem distribution_conservation (df : DataFrame) (cols : list string)
    (sers : list Series) (group_mode exclude_dont_know : bool) :
  Forall2 (fun col s => getitem df col = Ok s) cols sers →
  ∃ d : Distribution,
    calculate_response_distribution df cols group_mode exclude_dont_know = Ok d
    ∧ dist_sum d
      = length (List.filter (spec_counted group_mode exclude_dont_know) (concat sers)).
Proof.
  intros H. eexists. split.
  - by apply calculate_response_distribution_pool.
  - by rewrite dist_sum_value_counts, counted_pool.
Qed.

Lemma distribution_conservation_witness :
  ∃ d : Distribution,
    calculate_response_distribution scenario_df
      ["Our customers come first"; "Tenure"] true true = Ok d
    ∧ dist_sum d
      = length (List.filter (spec_counted true true)
                  (concat [[Some "Agree"; Some "Agree"; Some "Disagree"; Some "Don't Know"];
                           [Some "1y"; Some "2y"; Some "1y"; Some "2y"]])).
Proof.
  apply (distribution_conservation scenario_df
           ["Our customers come first"; "Tenure"]
           [[Some "Agree"; Some "Agree"; Some "Disagree"; Some "Don't Know"];
            [Some "1y"; Some "2y"; Some "1y"; Some "2y"]] true true).
  repeat constructor.
Defined.

(** C8. When the selected columns are columns of the table and none of
    their cells is counted (all are missing or removed by the filters),
    [calculate_response_distribution] returns the empty distribution, not
    an exception. *)
Theorem distribution_of_nothing (df : DataFrame) (cols : list string)
    (sers : list Series) (group_mode exclude_dont_know : bool) :
  Forall2 (fun col s => getitem df col = Ok s) cols sers →
  List.filter (spec_counted group_mode exclude_dont_know) (concat sers) = [] →
  calculate_response_distribution df cols group_mode exclude_dont_know = Ok ∅.
Proof.
  intros H Hnone.
  rewrite (calculate_response_distribution_pool df _ _ cols sers H).
  f_equal. apply value_counts_missing, length_zero_iff_nil.
  by rewrite counted_pool, Hnone.
Qed.

Lemma distribution_of_nothing_witness :
  calculate_response_distribution empty_answers_df ["Q1"; "Q2"] true true = Ok ∅.
Proof.
  apply (distribution_of_nothing empty_answers_df ["Q1"; "Q2"]
           [[None; Some "Don't Know"]; [Some "Maybe"; None]] true true).
  - repeat constructor.
  - reflexivity.
Defined.

(** ** Texts *)

Lemma append_String (a : ascii) (s rest : string) :
  String a s +:+ rest = String a (s +:+ rest).
Proof. reflexivity. Qed.

Lemma prefix_spec (p s : string) :
  String.prefix p s = true ↔ ∃ rest, s = p +:+ rest.
Proof.
  revert s. induction p as [|a p IH]; intros s.
  - split; [intros _; by exists s | by destruct s].
  - destruct s as [|b s]; simpl.
    + split; [done | intros [rest H]; discriminate H].
    + destruct (ascii_dec a b) as [->|Hab].
      * rewrite IH. split; intros [rest H]; exists rest.
        -- by rewrite append_String, H.
        -- rewrite append_String in H. by injection H.
      * split; [done | intros [rest H]].
        rewrite append_String in H. congruence.
Qed.

Lemma str_in_spec (needle hay : string) :
  str_in needle hay = true
  ↔ ∃ before after, hay = before +:+ needle +:+ after.
Proof.
  induction hay as [|b hay IH]; cbn [str_in].
  - rewrite orb_false_r, prefix_spec. split.
    + intros [rest H]. by exists EmptyString, rest.
    + intros (before & after & H). destruct before as [|? ?]; [|discriminate H].
      by exists after.
  - rewrite orb_true_iff, prefix_spec, IH. split.
    + intros [[rest H] | (before & after & H)].
      * by exists EmptyString, rest.
      * exists (String b before), after. by rewrite append_String, H.
    + intros (before & after & H). destruct before as [|c before].
      * left. by exists after.
      * right. exists before, after. rewrite append_String in H. congruence.
Qed.

(** ** Columns *)

Lemma getitem_Ok_columns (df : DataFrame) (col : string) (s : Series) :
  getitem df col = Ok s → col ∈ columns df.
Proof.
  induction df as [|[name s'] df IH]; simpl; [done|].
  destruct (String.eqb_spec name col) as [->|Hne].
  - intros _. apply elem_of_cons. by left.
  - intros H. apply elem_of_cons. right. by apply IH.
Qed.

Lemma getitem_columns (df : DataFrame) (col : string) :
  col ∈ columns df → ∃ s, getitem df col = Ok s.
Proof.
  induction df as [|[name s'] df IH]; simpl.
  - by intros ?%elem_of_nil.
  - destruct (String.eqb_spec name col) as [->|Hne]; [by eexists|].
    intros [?|?]%elem_of_cons; [done|by apply IH].
Qed.

Lemma getitem_missing (df : DataFrame) (col : string) :
  col ∉ columns df → getitem df col = Raise (KeyError col).
Proof.
  induction df as [|[name s'] df IH]; simpl; [done|].
  rewrite not_elem_of_cons. intros [Hne Hnin].
  destruct (String.eqb_spec name col) as [->|_]; [done|by apply IH].
Qed.

Lemma elem_of_unique_from (seen s : Series) (c : cell) :
  c ∈ unique_from seen s ↔ c ∈ s ∧ c ∉ seen.
Proof.
  revert seen. induction s as [|x s IH]; intros seen; simpl.
  - rewrite elem_of_nil. tauto.
  - destruct (decide (x ∈ seen)) as [Hin|Hnin].
    + rewrite IH, elem_of_cons. split; [tauto|].
      intros [[->|?] ?]; tauto.
    + rewrite !elem_of_cons, IH, not_elem_of_cons. split.
      * intros [->|[? [? ?]]]; tauto.
      * intros [[->|?] ?]; [tauto|].
        destruct (decide (c = x)); tauto.
Qed.

Lemma elem_of_unique (s : Series) (c : cell) : c ∈ unique s ↔ c ∈ s.
Proof.
  unfold unique. rewrite elem_of_unique_from, elem_of_nil. tauto.
Qed.

Lemma NoDup_unique_from (seen s : Series) : NoDup (unique_from seen s).
Proof.
  revert seen. induction s as [|x s IH]; intros seen; simpl; [constructor|].
  destruct (decide (x ∈ seen)); [apply IH|].
  constructor; [|apply IH].
  rewrite elem_of_unique_from, elem_of_cons. tauto.
Qed.

Lemma elem_of_dropna (s : Series) (c : cell) :
  c ∈ dropna s ↔ c ∈ s ∧ is_Some c.
Proof. unfold dropna. rewrite list_elem_of_filter. tauto. Qed.

Lemma any_likert_spec (s : Series) :
  any_likert (unique (dropna s)) = true
  ↔ ∃ v, Some v ∈ s ∧ v ∈ likert_values.
Proof.
  unfold any_likert. rewrite existsb_exists. split.
  - intros ([v|] & Hin & Hv); [|done].
    apply list_elem_of_In, elem_of_unique, elem_of_dropna in Hin as [Hin _].
    apply bool_decide_eq_true in Hv. by exists v.
  - intros (v & Hin & Hv). exists (Some v). split.
    + apply list_elem_of_In, elem_of_unique, elem_of_dropna. by split; [|eexists].
    + by apply bool_decide_eq_true.
Qed.

(** A selected label that is no column of the table makes the call raise. *)
Lemma calculate_response_distribution_KeyError (df : DataFrame)
    (cols : list string) (col : string) (gm ex : bool) :
  col ∈ cols → col ∉ columns df →
  ∃ e, calculate_response_distribution df cols gm ex = Raise e.
Proof.
  intros Hin Hcol%getitem_missing.
  destruct (fold_extend_responses_missing df gm ex cols col (Ok []) Hin Hcol)
    as [e He].
  exists e. unfold calculate_response_distribution. by rewrite He.
Qed.

(** ** Likert detection *)

Lemma likert_step_Ok (df : DataFrame) (acc : list string) (col : string) :
  col ∈ columns df →
  likert_step df (Ok acc) col
  = Ok (if likert_test df col then acc ++ [col] else acc).
Proof.
  intros [s Hs]%getitem_columns. unfold likert_step, likert_test.
  rewrite Hs. simpl.
  destruct (negb (bool_decide _) && negb (String.prefix _ _)); simpl; [|done].
  by destruct (any_likert _).
Qed.

Lemma fold_likert_step (df : DataFrame) (cols acc : list string) :
  Forall (fun col => col ∈ columns df) cols →
  fold_left (likert_step df) cols (Ok acc)
  = Ok (acc ++ List.filter (likert_test df) cols).
Proof.
  intros H. revert acc.
  induction H as [|col cols Hcol _ IH]; intros acc; cbn [fold_left List.filter].
  - by rewrite app_nil_r.
  - rewrite (likert_step_Ok df acc col Hcol).
    destruct (likert_test df col); rewrite IH; [|done].
    by rewrite <- app_assoc.
Qed.

Lemma get_likert_columns_filter (df : DataFrame) :
  get_likert_columns df = Ok (List.filter (likert_test df) (columns df)).
Proof.
  unfold get_likert_columns. rewrite fold_likert_step; [done|].
  by apply Forall_forall.
Qed.

Lemma likert_test_spec (df : DataFrame) (col : string) :
  likert_test df col = true ↔ spec_is_likert df col.
Proof.
  unfold likert_test, spec_is_likert.
  rewrite !andb_true_iff, !negb_true_iff, bool_decide_eq_false.
  rewrite <- not_true_iff_false, prefix_spec.
  split.
  - intros [[H1 H2] H3]. split; [done|]. split; [done|].
    destruct (getitem df col) as [s|e] eqn:Hs; [|done].
    apply any_likert_spec in H3 as (v & Hv & Hl). by exists s, v.
  - intros (H1 & H2 & s & v & Hs & Hv & Hl). split; [done|].
    rewrite Hs. apply any_likert_spec. by exists v.
Qed.

(** C4. [get_likert_columns] never raises, and a label is in its result
    exactly when it is a column of the table, is none of Respondent_ID,
    Department and Tenure, does not begin with Open-Ended, and has among
    its cells one of the five Likert labels (one is enough: other texts in
    the column do not matter). *)
Theorem get_likert_columns_iff (df : DataFrame) :
  ∃ likert_cols : list string,
    get_likert_columns df = Ok likert_cols
    ∧ ∀ col : string,
        col ∈ likert_cols ↔ col ∈ columns df ∧ spec_is_likert df col.
Proof.
  exists (List.filter (likert_test df) (columns df)).
  split; [apply get_likert_columns_filter|].
  intros col.
  by rewrite list_elem_of_In, filter_In, <- list_elem_of_In, likert_test_spec.
Qed.

Lemma get_likert_columns_iff_witness :
  ∃ likert_cols : list string,
    get_likert_columns scenario_df = Ok likert_cols
    ∧ ∀ col : string,
        col ∈ likert_cols ↔ col ∈ columns scenario_df ∧ spec_is_likert scenario_df col.
Proof. exact (get_likert_columns_iff scenario_df). Defined.

Example get_likert_columns_mixed :
  get_likert_columns
    [("Respondent_ID", [Some "1"; Some "2"]);
     ("Department", [Some "Agree"; Some "Eng"]);
     ("Open-Ended Response", [Some "Agree"; None]);
     ("I own my work", [Some "see comment"; None; Some "Agree"]);
     ("Notes", [Some "none"; Some "agree"])]
  = Ok ["I own my work"].
Proof. reflexivity. Qed.

(** ** Categorization *)

(** The chain of [elif] tests is the first-match reading of the rules: the
    clause on "decision" adds nothing to the test of "own". *)
Lemma category_key_spec (col : string) : category_key col = spec_category col.
Proof.
  unfold category_key, spec_category, spec_rules, first_match, existsb.
  generalize (lower col). intros t.
  repeat match goal with
         | |- (if ?b then _ else _) = _ =>
             match b with
             | context [str_in ?kw t] =>
                 destruct (str_in kw t); cbn [orb andb]; try reflexivity
             end
         end.
Qed.

Lemma dict_append_map (key col : string) (f : string → list string)
    (names : list string) :
  dict_append key col (map (fun k => (k, f k)) names)
  = map (fun k => (k, if String.eqb k key then f k ++ [col] else f k)) names.
Proof.
  unfold dict_append. rewrite map_map. apply map_ext.
  intros k. by destruct (String.eqb k key).
Qed.

Lemma fold_dict_append (cols : list string) (f : string → list string)
    (names : list string) :
  fold_left (fun categories col => dict_append (category_key col) col categories)
            cols (map (fun k => (k, f k)) names)
  = map (fun k => (k, f k ++ List.filter
                              (fun col => String.eqb (category_key col) k) cols))
        names.
Proof.
  revert f. induction cols as [|col cols IH]; intros f; cbn [fold_left List.filter].
  - apply map_ext. intros k. by rewrite app_nil_r.
  - rewrite dict_append_map, IH. apply map_ext. intros k.
    rewrite (String.eqb_sym (category_key col) k).
    destruct (String.eqb k (category_key col)); [|done].
    by rewrite <- app_assoc.
Qed.

Lemma categorize_questions_map (likert_cols : list string) :
  categorize_questions likert_cols = spec_category_map likert_cols.
Proof.
  unfold categorize_questions, spec_category_map, remove_empty.
  change categories_init with (map (fun k => (k, @nil string)) spec_categories).
  rewrite fold_dict_append. f_equal. apply map_ext. intros k. simpl.
  unfold spec_assigned. f_equal. apply filter_ext. intros col.
  by rewrite category_key_spec.
Qed.

Lemma first_match_range (rules : list (list string * string)) (text : string) :
  first_match rules text ∈ map snd rules ++ ["Other"].
Proof.
  induction rules as [|[keywords category] rules IH]; simpl.
  - apply elem_of_cons. by left.
  - destruct (existsb _ keywords); apply elem_of_cons; [by left|by right].
Qed.

Lemma spec_category_range (col : string) : spec_category col ∈ spec_categories.
Proof. apply (first_match_range spec_rules). Qed.

Lemma elem_of_spec_category_map (likert_cols : list string) (category : string)
    (cols : list string) :
  (category, cols) ∈ spec_category_map likert_cols
  ↔ category ∈ spec_categories ∧ cols = spec_assigned likert_cols category
    ∧ cols ≠ [].
Proof.
  unfold spec_category_map.
  rewrite list_elem_of_In, filter_In, in_map_iff. split.
  - intros [(k & [= <- <-] & Hk%list_elem_of_In) Hne].
    split; [done|]. split; [done|]. intros E. by rewrite E in Hne.
  - intros (Hk & -> & Hne). split.
    + exists category. split; [done|]. by apply list_elem_of_In.
    + by destruct (spec_assigned likert_cols category).
Qed.

(** C5. [categorize_questions] returns the category map of the
    specification: the eight categories in their fixed order, each with the
    columns whose first matching rule (on the lower-cased text, in priority
    order, Other when none matches) names it, in the order of the column
    list, and without the categories that received no column. Hence no
    entry is empty, and each column of the list is in the list of exactly
    one category. *)
Theorem categorize_questions_spec (likert_cols : list string) :
  categorize_questions likert_cols = spec_category_map likert_cols
  ∧ (∀ category cols,
       (category, cols) ∈ categorize_questions likert_cols →
       category ∈ spec_categories ∧ cols ≠ []
       ∧ cols = List.filter (fun col => String.eqb (spec_category col) category)
                  likert_cols)
  ∧ (∀ col, col ∈ likert_cols →
       ∀ category,
         (∃ cols, (category, cols) ∈ categorize_questions likert_cols ∧ col ∈ cols)
         ↔ category = spec_category col)
  ∧ NoDup (map fst (categorize_questions likert_cols)).
Proof.
  rewrite categorize_questions_map. split; [done|]. split; [|split].
  - intros category cols (Hk & -> & Hne)%elem_of_spec_category_map. done.
  - intros col Hcol category. split.
    + intros (cols & (_ & -> & _)%elem_of_spec_category_map & Hin).
      unfold spec_assigned in Hin.
      apply list_elem_of_In, filter_In in Hin as [_ Hin].
      by apply String.eqb_eq in Hin.
    + intros ->. exists (spec_assigned likert_cols (spec_category col)).
      assert (col ∈ spec_assigned likert_cols (spec_category col)) as Hin.
      { unfold spec_assigned. apply list_elem_of_In, filter_In.
        split; [by apply list_elem_of_In | apply String.eqb_refl]. }
      split; [|done]. apply elem_of_spec_category_map.
      split; [apply spec_category_range|]. split; [done|].
      intros E. rewrite E in Hin. by apply elem_of_nil in Hin.
  - unfold spec_category_map.
    assert (∀ (l : categories_dict),
              NoDup (map fst l) →
              NoDup (map fst (List.filter
                (fun '(_, v) => match v with [] => false | _ => true end) l)))
      as Hfilter.
    { induction l as [|[k v] l IH]; simpl; [done|].
      rewrite NoDup_cons. intros [Hk Hl].
      destruct v; simpl; [by apply IH|].
      apply NoDup_cons. split; [|by apply IH].
      intros Hin. apply Hk. revert Hin.
      rewrite !list_elem_of_In, !in_map_iff.
      intros ([k' v'] & <- & [Hin _]%filter_In). by exists (k', v'). }
    apply Hfilter. rewrite map_map. cbn [fst]. rewrite map_id.
    unfold spec_categories. compute_done.
Qed.

Lemma categorize_questions_spec_witness :
  categorize_questions ["I own my decisions"; "We help customers"]
  = spec_category_map ["I own my decisions"; "We help customers"].
Proof.
  exact (proj1 (categorize_questions_spec ["I own my decisions"; "We help customers"])).
Defined.

Example categorize_questions_order :
  categorize_questions
    ["We help each other grow"; "I own my decisions";
     "Customers value our new tools"; "We take PRIDE in our work";
     "I feel anxious about change"; "My manager is fair";
     "I am accountable"; "We support customer success"]
  = [("Customer Focused", ["Customers value our new tools"; "We support customer success"]);
     ("Excellence", ["We take PRIDE in our work"]);
     ("Accountability", ["I own my decisions"; "I am accountable"]);
     ("Supportive", ["We help each other grow"]);
     ("Growth & Change", ["I feel anxious about change"]);
     ("Other", ["My manager is fair"])].
Proof. vm_compute. reflexivity. Qed.

(** ** Loading *)

Lemma to_drop_spec (label : string) : to_drop label = true ↔ spec_dropped label.
Proof.
  unfold to_drop, spec_dropped.
  by rewrite orb_true_iff, str_in_spec, String.eqb_eq.
Qed.

Lemma columns_zip (names : list string) (data : list Series) :
  length data = length names → columns (zip names data) = names.
Proof.
  revert data. induction names as [|n names IH]; intros [|d data]; simpl;
    try done.
  intros [= H]. f_equal. by apply IH.
Qed.

Lemma columns_rename (df : DataFrame) :
  columns (rename df) = map rename_label (columns df).
Proof.
  unfold columns, rename. rewrite !map_map. apply map_ext. by intros [name s].
Qed.

Lemma drop_to_drop (df : DataFrame) :
  drop df (List.filter to_drop (columns df))
  = List.filter (fun '(name, _) => negb (to_drop name)) df.
Proof.
  unfold drop. apply filter_ext_in. intros [name s] Hin. f_equal.
  destruct (to_drop name) eqn:E.
  - apply bool_decide_eq_true, list_elem_of_In, filter_In. split; [|done].
    apply in_map_iff. by exists (name, s).
  - apply bool_decide_eq_false. rewrite list_elem_of_In, filter_In.
    intros [_ H]. congruence.
Qed.

Lemma filter_all {A} (f : A → bool) (l : list A) :
  (∀ x, x ∈ l → f x = true) → List.filter f l = l.
Proof.
  induction l as [|x l IH]; intros H; simpl; [done|].
  rewrite (H x) by (apply elem_of_cons; by left).
  f_equal. apply IH. intros y Hy. apply H, elem_of_cons. by right.
Qed.

Lemma load_data_mismatch (df : DataFrame) (questions : list string) :
  length df ≠ length questions →
  load_data df questions = Raise (ValueError "Length mismatch").
Proof.
  intros H%Nat.eqb_neq. unfold load_data, set_columns. by rewrite H.
Qed.

(** C9. When the two reads of the file agree on the number of columns,
    [load_data] returns the relabelled, renamed table without the columns
    whose renamed label contains "Other (please specify)" or is "Response",
    and with every other column, cells and order unchanged: a label is a
    column of the loaded table exactly when it is a renamed label that is
    not to be dropped. When no label is to be dropped the loaded table is
    the renamed table itself. *)
Theorem load_data_drops (df : DataFrame) (questions : list string) :
  length df = length questions →
  ∃ loaded : DataFrame,
    load_data df questions = Ok loaded
    ∧ loaded = List.filter (fun '(name, _) => negb (to_drop name))
                 (rename (zip questions (map snd df)))
    ∧ (∀ label, label ∈ columns loaded
                ↔ label ∈ map rename_label questions ∧ ¬ spec_dropped label)
    ∧ ((∀ label, label ∈ map rename_label questions → ¬ spec_dropped label) →
       loaded = rename (zip questions (map snd df))).
Proof.
  intros Hlen. eexists. split; [|split; [reflexivity|split]].
  - unfold load_data, set_columns.
    rewrite (proj2 (Nat.eqb_eq _ _) Hlen). simpl. by rewrite drop_to_drop.
  - intros label.
    assert (columns (rename (zip questions (map snd df)))
            = map rename_label questions) as Hcols.
    { rewrite columns_rename, columns_zip; [done|by rewrite length_map]. }
    rewrite <- Hcols. unfold columns.
    rewrite !list_elem_of_In, !in_map_iff. split.
    + intros ([name s] & <- & [Hin Hkeep]%filter_In). split.
      * by exists (name, s).
      * rewrite <- to_drop_spec. simpl. by destruct (to_drop name).
    + intros [([name s] & <- & Hin) Hkeep]. exists (name, s). split; [done|].
      apply filter_In. split; [done|].
      simpl in Hkeep. rewrite <- to_drop_spec in Hkeep.
      by destruct (to_drop name).
  - intros Hnone. apply filter_all. intros [name s] Hin.
    assert (name ∈ map rename_label questions) as Hname.
    { rewrite <- (columns_zip questions (map snd df)) by (by rewrite length_map).
      rewrite <- columns_rename. unfold columns.
      apply list_elem_of_In, in_map_iff. exists (name, s).
      split; [done|]. by apply list_elem_of_In. }
    apply Hnone in Hname. rewrite <- to_drop_spec in Hname.
    by destruct (to_drop name).
Qed.

Lemma load_data_drops_witness :
  ∃ loaded : DataFrame,
    load_data raw_df raw_questions = Ok loaded
    ∧ loaded = List.filter (fun '(name, _) => negb (to_drop name))
                 (rename (zip raw_questions (map snd raw_df)))
    ∧ (∀ label, label ∈ columns loaded
                ↔ label ∈ map rename_label raw_questions ∧ ¬ spec_dropped label)
    ∧ ((∀ label, label ∈ map rename_label raw_questions → ¬ spec_dropped label) →
       loaded = rename (zip raw_questions (map snd raw_df))).
Proof. apply (load_data_drops raw_df raw_questions). reflexivity. Defined.

Example load_data_scenario_E :
  load_data raw_df raw_questions
  = Ok [("Respondent_ID", [Some "1"; Some "2"]);
        ("Department", [Some "Eng"; Some "Ops"]);
        ("Tenure", [Some "1y"; None]);
        ("Our customers come first", [Some "Agree"; Some "Disagree"])].
Proof. reflexivity. Qed.

(** ** The sidebar filters *)

Lemma elem_of_tolist_str (s : Series) (v : string) :
  v ∈ tolist_str s ↔ Some v ∈ s.
Proof.
  unfold tolist_str. rewrite list_elem_of_omap. split.
  - intros (c & Hc & Hv). unfold id in Hv. by subst c.
  - intros H. by exists (Some v).
Qed.

Lemma NoDup_tolist_str (s : Series) : NoDup s → NoDup (tolist_str s).
Proof.
  unfold tolist_str. induction 1 as [|c s Hc _ IH]; simpl; [constructor|].
  destruct c as [v|]; simpl; [|done].
  constructor; [|done]. by rewrite (elem_of_tolist_str s v).
Qed.

Lemma filter_options_spec (df : DataFrame) (label : string) (s : Series) :
  getitem df label = Ok s →
  ∃ options : list string,
    filter_options df label = Ok options
    ∧ NoDup options ∧ ∀ v, v ∈ options ↔ Some v ∈ s.
Proof.
  intros Hs. eexists. split; [unfold filter_options; by rewrite Hs|]. split.
  - apply NoDup_tolist_str, NoDup_unique_from.
  - intros v. rewrite elem_of_tolist_str, elem_of_unique, elem_of_dropna.
    split; [tauto|]. intros H. by split; [|eexists].
Qed.

Lemma render_sidebar_filters_outcome (df : DataFrame) :
  snd (render_sidebar_filters df) = sidebar_filters df.
Proof.
  unfold render_sidebar_filters, sidebar_filters.
  destruct (filter_options df "Department") as [ds|e]; [|reflexivity].
  by destruct (filter_options df "Tenure") as [ts|e].
Qed.

Lemma filter_options_missing (df : DataFrame) (label : string) :
  label ∉ columns df → filter_options df label = Raise (KeyError label).
Proof. intros H%getitem_missing. unfold filter_options. by rewrite H. Qed.

Lemma options_empty (options : list string) (s : Series) :
  (∀ v, v ∈ options ↔ Some v ∈ s) →
  options = [] ↔ ∀ c, c ∈ s → c = None.
Proof.
  intros Hin. split.
  - intros -> [v|] Hc; [|done]. apply Hin in Hc. by apply elem_of_nil in Hc.
  - intros Hnone. destruct options as [|v options]; [done|].
    assert (Some v ∈ s) as Hv by (apply Hin, elem_of_cons; by left).
    by apply Hnone in Hv.
Qed.

(** C7, as the code has it, for a table whose column labels are distinct
    (with a repeated label [df[col]] is a frame and not a series, which
    [getitem] does not model).  [main] looks the two columns up without a
    guard.  Without a Department
    column the first lookup raises [KeyError] and no filter is put in the
    sidebar.  With a Department column and without a Tenure column the
    Department filter is put in the sidebar, its options and its default
    the distinct non-missing values of the column, and the lookup of Tenure
    then raises [KeyError]: there is no Tenure filter.  With both columns
    both filters are put in the sidebar, each with the distinct non-missing
    values of its column, so that a filter has no option exactly when its
    column holds no value. *)
Theorem sidebar_filters_spec (df : DataFrame) :
  NoDup (columns df) →
  ("Department" ∉ columns df →
   render_sidebar_filters df = ([], Raise (KeyError "Department"))
   ∧ sidebar_filters df = Raise (KeyError "Department"))
  ∧ (∀ department : Series,
       getitem df "Department" = Ok department → "Tenure" ∉ columns df →
       ∃ departments : list string,
         render_sidebar_filters df
         = ([Multiselect "Department" departments departments],
            Raise (KeyError "Tenure"))
         ∧ sidebar_filters df = Raise (KeyError "Tenure")
         ∧ NoDup departments
         ∧ (∀ v, v ∈ departments ↔ Some v ∈ department)
         ∧ (departments = [] ↔ ∀ c, c ∈ department → c = None))
  ∧ (∀ department tenure : Series,
       getitem df "Department" = Ok department →
       getitem df "Tenure" = Ok tenure →
       ∃ departments tenure_options : list string,
         render_sidebar_filters df
         = ([Multiselect "Department" departments departments;
             Multiselect "Tenure" tenure_options tenure_options],
            Ok (departments, tenure_options))
         ∧ sidebar_filters df = Ok (departments, tenure_options)
         ∧ NoDup departments ∧ NoDup tenure_options
         ∧ (∀ v, v ∈ departments ↔ Some v ∈ department)
         ∧ (∀ v, v ∈ tenure_options ↔ Some v ∈ tenure)
         ∧ (departments = [] ↔ ∀ c, c ∈ department → c = None)
         ∧ (tenure_options = [] ↔ ∀ c, c ∈ tenure → c = None)).
Proof.
  intros _. split; [|split].
  - intros H. pose proof (filter_options_missing df _ H) as Hd.
    rewrite <- render_sidebar_filters_outcome.
    unfold render_sidebar_filters. by rewrite Hd.
  - intros department Hd Ht.
    destruct (filter_options_spec df _ _ Hd) as (ds & Hds & Hnd & Hin).
    pose proof (filter_options_missing df _ Ht) as Hts.
    exists ds. rewrite <- render_sidebar_filters_outcome.
    unfold render_sidebar_filters. rewrite Hds, Hts.
    split; [done|]. split; [done|]. split; [done|]. split; [done|].
    by apply options_empty.
  - intros department tenure Hd Ht.
    destruct (filter_options_spec df _ _ Hd) as (ds & Hds & Hnd & Hin).
    destruct (filter_options_spec df _ _ Ht) as (ts & Hts & Hnt & Hint).
    exists ds, ts. rewrite <- render_sidebar_filters_outcome.
    unfold render_sidebar_filters. rewrite Hds, Hts.
    split; [done|]. split; [done|]. split; [done|]. split; [done|].
    split; [done|]. split; [done|]. split; by apply options_empty.
Qed.

Lemma sidebar_filters_spec_witness :
  (render_sidebar_filters no_department_df = ([], Raise (KeyError "Department"))
   ∧ sidebar_filters no_department_df = Raise (KeyError "Department"))
  ∧ (∃ departments : list string,
       render_sidebar_filters no_tenure_df
       = ([Multiselect "Department" departments departments],
          Raise (KeyError "Tenure"))
       ∧ sidebar_filters no_tenure_df = Raise (KeyError "Tenure")
       ∧ NoDup departments
       ∧ (∀ v, v ∈ departments ↔ Some v ∈ [Some "Eng"; Some "Ops"])
       ∧ (departments = [] ↔ ∀ c, c ∈ [Some "Eng"; Some "Ops"] → c = None))
  ∧ ∃ departments tenure_options : list string,
      render_sidebar_filters scenario_df
      = ([Multiselect "Department" departments departments;
          Multiselect "Tenure" tenure_options tenure_options],
         Ok (departments, tenure_options))
      ∧ sidebar_filters scenario_df = Ok (departments, tenure_options)
      ∧ NoDup departments ∧ NoDup tenure_options
      ∧ (∀ v, v ∈ departments
              ↔ Some v ∈ [Some "Eng"; Some "Eng"; Some "Ops"; Some "Ops"])
      ∧ (∀ v, v ∈ tenure_options
              ↔ Some v ∈ [Some "1y"; Some "2y"; Some "1y"; Some "2y"])
      ∧ (departments = []
         ↔ ∀ c, c ∈ [Some "Eng"; Some "Eng"; Some "Ops"; Some "Ops"] → c = None)
      ∧ (tenure_options = []
         ↔ ∀ c, c ∈ [Some "1y"; Some "2y"; Some "1y"; Some "2y"] → c = None).
Proof.
  split; [|split].
  - apply (proj1 (sidebar_filters_spec no_department_df ltac:(compute_done))).
    compute_done.
  - apply (proj1 (proj2 (sidebar_filters_spec no_tenure_df ltac:(compute_done)))).
    + reflexivity.
    + compute_done.
  - apply (proj2 (proj2 (sidebar_filters_spec scenario_df ltac:(compute_done))));
      reflexivity.
Defined.

(** C7 as stated fails: on a table without a Department column the lookup
    raises and no filter is put in the sidebar, and on a table without a
    Tenure column the lookup of Tenure raises after the Department filter:
    in neither case is a filter presented with zero options and the
    computation carried on. *)
Lemma sidebar_filters_missing_column :
  ("Department" ∉ columns no_department_df)
  ∧ sidebar_filters no_department_df = Raise (KeyError "Department")
  ∧ render_sidebar_filters no_department_df = ([], Raise (KeyError "Department"))
  ∧ render_sidebar_filters no_tenure_df
    = ([Multiselect "Department" ["Eng"; "Ops"] ["Eng"; "Ops"]],
       Raise (KeyError "Tenure"))
  ∧ ¬ (∀ df : DataFrame,
         "Department" ∉ columns df ∨ "Tenure" ∉ columns df →
         ∃ options, sidebar_filters df = Ok options).
Proof.
  split; [compute_done|]. split; [reflexivity|]. split; [reflexivity|].
  split; [reflexivity|].
  intros H. destruct (H no_department_df) as [options Ho]; [left; compute_done|].
  discriminate Ho.
Qed.

Example sidebar_filters_scenario :
  sidebar_filters scenario_df = Ok (["Eng"; "Ops"], ["1y"; "2y"]).
Proof. reflexivity. Qed.

Example sidebar_filters_all_missing :
  sidebar_filters [("Department", [None; None]); ("Tenure", [])] = Ok ([], []).
Proof. reflexivity. Qed.

(** ** The exclusion of Don't Know *)

Lemma value_counts_lookup_None (values : list cell) (label : string) :
  value_counts values !! label = None ↔ Some label ∉ values.
Proof.
  induction values as [|[l|] values IH]; simpl.
  - rewrite lookup_empty, elem_of_nil. tauto.
  - rewrite not_elem_of_cons, <- IH. destruct (decide (l = label)) as [->|Hne].
    + rewrite lookup_insert_eq. split; [done|]. by intros [? _].
    + rewrite lookup_insert_ne by done. split; [|tauto].
      intros H. split; [congruence|done].
  - rewrite not_elem_of_cons, <- IH. split; [done|tauto].
Qed.

(** With the flag set, the distribution that
    [calculate_response_distribution] returns has no Don't Know entry, in
    either grouping mode. *)
Lemma calculate_response_distribution_excludes (df : DataFrame)
    (cols : list string) (sers : list Series) (group_mode : bool) :
  Forall2 (fun col s => getitem df col = Ok s) cols sers →
  ∃ d : Distribution,
    calculate_response_distribution df cols group_mode true = Ok d
    ∧ d !! "Don't Know" = None.
Proof.
  intros H. eexists. split; [by apply calculate_response_distribution_pool|].
  apply value_counts_lookup_None. rewrite list_elem_of_In, in_concat.
  intros (l & Hl & Hin).
  apply list_elem_of_In, list_elem_of_fmap in Hl as (s & -> & _).
  by apply list_elem_of_In, group_responses_no_dont_know in Hin.
Qed.

(** The two breakdowns do not look at the flag. *)
Lemma segment_data_ignores_flag (filtered_df : DataFrame) (segment : string)
    (selected_questions : list string) (group_mode exclude_dont_know : bool)
    (selected : list string) :
  segment_data filtered_df segment selected_questions group_mode
    exclude_dont_know selected
  = segment_data filtered_df segment selected_questions group_mode false selected.
Proof.
  induction selected as [|value selected IH]; [reflexivity|].
  simpl. by rewrite IH.
Qed.

(** C3 on the table of the scenarios, ungrouped, with Don't Know excluded:
    the overall distribution has no Don't Know entry, the distributions by
    department and by tenure both keep theirs. *)
Theorem breakdowns_keep_dont_know :
  filter_data scenario_df ["Eng"; "Ops"] ["1y"; "2y"] = Ok scenario_df
  ∧ calculate_response_distribution scenario_df ["Our customers come first"]
      false true
    = Ok {[ "Agree" := 2; "Disagree" := 1 ]}
  ∧ dept_data scenario_df ["Eng"; "Ops"] ["Our customers come first"] false true
    = Ok [("Eng", {[ "Agree" := 2 ]});
          ("Ops", {[ "Disagree" := 1; "Don't Know" := 1 ]})]
  ∧ tenure_data scenario_df ["1y"; "2y"] ["Our customers come first"] false true
    = Ok [("1y", {[ "Agree" := 1; "Disagree" := 1 ]});
          ("2y", {[ "Agree" := 1; "Don't Know" := 1 ]})].
Proof. repeat split; vm_compute; reflexivity. Qed.

(** ** The sentiment metric *)

Lemma pct_zero (count : nat) : pct count 0 = PctZero.
Proof. reflexivity. Qed.

Lemma pct_quotient (count total c t : nat) :
  pct count total = PctOf c t → c = count ∧ t = total ∧ 0 < total.
Proof.
  unfold pct. destruct (Nat.ltb_spec 0 total); [|done].
  by intros [= <- <-].
Qed.

(** C10. On a distribution whose counts add up to zero (the empty one in
    particular) the metric is the literal 0 in both modes, and no division
    takes place; whenever a quotient is computed its divisor, the total of
    the distribution, is positive. *)
Theorem overall_sentiment_zero (group_mode : bool) (distribution : Distribution) :
  dist_sum distribution = 0 →
  overall_sentiment group_mode distribution = PctZero
  ∧ ∀ (gm : bool) (d : Distribution) (count total : nat),
      overall_sentiment gm d = PctOf count total →
      total = dist_sum d ∧ 0 < total.
Proof.
  intros H0. split.
  - unfold overall_sentiment. rewrite H0.
    by destruct (group_mode && in_index distribution "Positive").
  - intros gm d count total. unfold overall_sentiment.
    destruct (gm && in_index d "Positive");
      intros (_ & -> & Hpos)%pct_quotient; done.
Qed.

Lemma overall_sentiment_zero_witness :
  overall_sentiment true ∅ = PctZero
  ∧ ∀ (gm : bool) (d : Distribution) (count total : nat),
      overall_sentiment gm d = PctOf count total →
      total = dist_sum d ∧ 0 < total.
Proof. apply (overall_sentiment_zero true ∅). reflexivity. Defined.

Example overall_sentiment_grouped :
  overall_sentiment true {[ "Positive" := 2; "Negative" := 1; "Don't Know" := 1 ]}
  = PctOf 2 4.
Proof. vm_compute. reflexivity. Qed.

Example overall_sentiment_ungrouped :
  overall_sentiment false {[ "Agree" := 2; "Disagree" := 1; "Don't Know" := 1 ]}
  = PctOf 2 4.
Proof. vm_compute. reflexivity. Qed.

(** * Further properties *)

(** ** What a distribution holds *)

Lemma count_label_cons (label : string) (c : cell) (values : list cell) :
  count_label label (c :: values)
  = (if bool_decide (c = Some label) then 1 else 0) + count_label label values.
Proof. unfold count_label. simpl. by destruct (bool_decide _). Qed.

Lemma count_label_app (label : string) (l1 l2 : list cell) :
  count_label label (l1 ++ l2) = count_label label l1 + count_label label l2.
Proof. unfold count_label. by rewrite List.filter_app, length_app. Qed.

Lemma count_label_zero (label : string) (values : list cell) :
  count_label label values = 0 ↔ Some label ∉ values.
Proof.
  induction values as [|c values IH].
  { split; [intros _; apply not_elem_of_nil | reflexivity]. }
  rewrite count_label_cons, not_elem_of_cons, <- IH.
  destruct (decide (c = Some label)) as [->|Hne].
  - rewrite bool_decide_eq_true_2 by done. split; [done|]. by intros [? _].
  - rewrite bool_decide_eq_false_2 by done. simpl. split; [|tauto].
    intros H. split; [congruence|done].
Qed.

Lemma value_counts_lookup (values : list cell) (label : string) :
  value_counts values !! label
  = if Nat.eqb (count_label label values) 0 then None
    else Some (count_label label values).
Proof.
  induction values as [|[l|] values IH].
  - apply lookup_empty.
  - rewrite count_label_cons. cbn [value_counts foldr count_cell].
    fold (value_counts values).
    destruct (decide (l = label)) as [->|Hne].
    + rewrite lookup_insert_eq, bool_decide_eq_true_2 by done.
      unfold get0. rewrite IH. simpl.
      by destruct (count_label label values).
    + rewrite lookup_insert_ne by done.
      rewrite bool_decide_eq_false_2 by congruence. exact IH.
  - rewrite count_label_cons, bool_decide_eq_false_2 by done. exact IH.
Qed.

Lemma value_counts_get0 (values : list cell) (label : string) :
  get0 (value_counts values) label = count_label label values.
Proof.
  unfold get0. rewrite value_counts_lookup.
  by destruct (count_label label values).
Qed.

Lemma value_counts_positive (values : list cell) (label : string) (n : nat) :
  value_counts values !! label = Some n → 0 < n.
Proof.
  rewrite value_counts_lookup.
  destruct (count_label label values); simpl; [done|].
  intros [= <-]. lia.
Qed.

Lemma calculate_response_distribution_Ok_inv (df : DataFrame) (cols : list string)
    (gm ex : bool) (d : Distribution) :
  calculate_response_distribution df cols gm ex = Ok d →
  ∃ values : list cell, d = value_counts values.
Proof.
  unfold calculate_response_distribution.
  destruct (fold_left _ cols (Ok [])) as [all|e]; simpl; [|done].
  destruct all as [|c all]; intros [= <-].
  - by exists [].
  - by exists (c :: all).
Qed.

Lemma dist_sum_pos (d : Distribution) :
  (∀ label n, d !! label = Some n → 0 < n) → d ≠ ∅ → 0 < dist_sum d.
Proof.
  intros Hpos Hne.
  destruct (map_choose d Hne) as (label & n & Hl).
  rewrite (dist_sum_delete d label n Hl). specialize (Hpos label n Hl). lia.
Qed.

(** X1. The count of a label in the distribution is the number of pooled
    responses that hold it, and a label is in the index exactly when that
    number is positive. *)
Theorem distribution_counts (df : DataFrame) (cols : list string)
    (sers : list Series) (group_mode exclude_dont_know : bool) :
  Forall2 (fun col s => getitem df col = Ok s) cols sers →
  ∃ d : Distribution,
    calculate_response_distribution df cols group_mode exclude_dont_know = Ok d
    ∧ ∀ label : string,
        let n := count_label label
                   (concat ((fun s => group_responses (dropna s) group_mode
                                        exclude_dont_know) <$> sers)) in
        get0 d label = n ∧ (in_index d label = true ↔ 0 < n).
Proof.
  intros H. eexists. split; [by apply calculate_response_distribution_pool|].
  intros label n. split; [apply value_counts_get0|].
  unfold in_index. rewrite bool_decide_eq_true, value_counts_lookup. fold n.
  destruct n; simpl.
  - split; [by intros [? ?]|lia].
  - split; [lia|by eexists].
Qed.

Lemma distribution_counts_witness :
  ∃ d : Distribution,
    calculate_response_distribution scenario_df ["Our customers come first"]
      true false = Ok d
    ∧ ∀ label : string,
        let n := count_label label
                   (concat ((fun s => group_responses (dropna s) true false)
                              <$> [[Some "Agree"; Some "Agree"; Some "Disagree";
                                    Some "Don't Know"]])) in
        get0 d label = n ∧ (in_index d label = true ↔ 0 < n).
Proof.
  apply (distribution_counts scenario_df ["Our customers come first"]
           [[Some "Agree"; Some "Agree"; Some "Disagree"; Some "Don't Know"]]
           true false).
  repeat constructor.
Defined.

(** X2. Whatever the table and the selection, a distribution that
    [calculate_response_distribution] returns has no zero count, so that
    when it is not empty its total is positive: the division by the total
    under the test [not distribution.empty] never divides by zero. *)
Theorem distribution_total_positive (df : DataFrame) (cols : list string)
    (group_mode exclude_dont_know : bool) (d : Distribution) :
  calculate_response_distribution df cols group_mode exclude_dont_know = Ok d →
  (∀ label n, d !! label = Some n → 0 < n)
  ∧ (dist_empty d = false → 0 < dist_sum d).
Proof.
  intros (values & ->)%calculate_response_distribution_Ok_inv.
  assert (∀ label n, value_counts values !! label = Some n → 0 < n) as Hpos
    by apply value_counts_positive.
  split; [done|].
  intros He%bool_decide_eq_false. by apply dist_sum_pos.
Qed.

Lemma distribution_total_positive_witness :
  (∀ label n,
     ({[ "Agree" := 2; "Disagree" := 1; "Don't Know" := 1 ]} : Distribution)
       !! label = Some n → 0 < n)
  ∧ (dist_empty ({[ "Agree" := 2; "Disagree" := 1; "Don't Know" := 1 ]} : Distribution)
     = false
     → 0 < dist_sum ({[ "Agree" := 2; "Disagree" := 1; "Don't Know" := 1 ]} : Distribution)).
Proof.
  apply (distribution_total_positive scenario_df ["Our customers come first"]
           false false).
  vm_compute. reflexivity.
Defined.

(** ** Exclusion and grouping, on distributions *)

Lemma calculate_response_distribution_fold (df : DataFrame) (cols : list string)
    (gm ex : bool) :
  calculate_response_distribution df cols gm ex
  = value_counts <$> fold_left (extend_responses df gm ex) cols (Ok []).
Proof.
  unfold calculate_response_distribution.
  destruct (fold_left _ cols (Ok [])) as [all|e]; [|reflexivity].
  by destruct all.
Qed.

Lemma extend_responses_exclude (df : DataFrame) (gm : bool)
    (acc : result (list cell)) (col : string) :
  extend_responses df gm true (List.filter ne_dont_know <$> acc) col
  = List.filter ne_dont_know <$> extend_responses df gm false acc col.
Proof.
  unfold extend_responses. destruct acc as [all|e]; [|reflexivity].
  cbn [fmap result_fmap mbind result_bind].
  destruct (getitem df col) as [s|e]; [|reflexivity].
  cbn [fmap result_fmap mbind result_bind mret result_ret].
  by rewrite List.filter_app, group_responses_exclude.
Qed.

Lemma fold_extend_responses_exclude (df : DataFrame) (gm : bool)
    (cols : list string) (acc : result (list cell)) :
  fold_left (extend_responses df gm true) cols (List.filter ne_dont_know <$> acc)
  = List.filter ne_dont_know <$> fold_left (extend_responses df gm false) cols acc.
Proof.
  revert acc. induction cols as [|col cols IH]; intros acc; [reflexivity|].
  cbn [fold_left]. by rewrite extend_responses_exclude, IH.
Qed.

Lemma count_label_exclude (label : string) (values : list cell) :
  label ≠ "Don't Know" →
  count_label label (List.filter ne_dont_know values) = count_label label values.
Proof.
  intros Hne. induction values as [|c values IH]; [reflexivity|].
  cbn [List.filter]. destruct (ne_dont_know c) eqn:E.
  - by rewrite !count_label_cons, IH.
  - rewrite count_label_cons, IH.
    apply not_true_iff_false in E. rewrite ne_dont_know_spec in E.
    apply dec_stable in E. subst c.
    rewrite bool_decide_eq_false_2; [done|congruence].
Qed.

Lemma value_counts_exclude (values : list cell) :
  value_counts (List.filter ne_dont_know values)
  = delete "Don't Know" (value_counts values).
Proof.
  apply map_eq. intros label. rewrite value_counts_lookup.
  destruct (decide (label = "Don't Know")) as [->|Hne].
  - rewrite lookup_delete_eq.
    assert (count_label "Don't Know" (List.filter ne_dont_know values) = 0) as ->;
      [|done].
    apply count_label_zero. rewrite list_elem_of_In, filter_In.
    intros [_ H]. by apply ne_dont_know_spec in H.
  - rewrite lookup_delete_ne by done.
    by rewrite value_counts_lookup, count_label_exclude.
Qed.

Lemma calculate_excluding_eq (df : DataFrame) (cols : list string) (gm : bool) :
  calculate_response_distribution df cols gm true
  = delete "Don't Know" <$> calculate_response_distribution df cols gm false.
Proof.
  rewrite !calculate_response_distribution_fold.
  change (Ok (A:=list cell) []) with (List.filter ne_dont_know <$> Ok (A:=list cell) []) at 1.
  rewrite fold_extend_responses_exclude.
  destruct (fold_left _ cols (Ok [])) as [all|e]; [|reflexivity].
  simpl. f_equal. apply value_counts_exclude.
Qed.

(** X3. Excluding Don't Know removes that one entry from the distribution
    and changes nothing else: for every table, selection and grouping mode
    the call with the flag returns the result of the call without it, less
    the Don't Know entry, and raises when that call raises. *)
Theorem exclusion_deletes_dont_know (df : DataFrame) (cols : list string)
    (group_mode : bool) :
  calculate_response_distribution df cols group_mode true
  = delete "Don't Know" <$> calculate_response_distribution df cols group_mode false.
Proof. apply calculate_excluding_eq. Qed.

Lemma series_map_concat (sers : list Series) :
  concat ((fun s => group_responses (dropna s) true false) <$> sers)
  = series_map (concat (dropna <$> sers)).
Proof.
  induction sers as [|s sers IH]; [reflexivity|].
  rewrite !fmap_cons. cbn [concat]. unfold series_map in *.
  by rewrite fmap_app, IH.
Qed.

Lemma ungrouped_concat (sers : list Series) :
  concat ((fun s => group_responses (dropna s) false false) <$> sers)
  = concat (dropna <$> sers).
Proof. reflexivity. Qed.

Lemma count_label_grouped (values : list cell) :
  count_label "Positive" (series_map values)
  = count_label "Strongly Agree" values + count_label "Agree" values
  ∧ count_label "Negative" (series_map values)
    = count_label "Strongly Disagree" values + count_label "Disagree" values
  ∧ count_label "Don't Know" (series_map values)
    = count_label "Don't Know" values.
Proof.
  unfold series_map.
  induction values as [|c values (IH1 & IH2 & IH3)]; [done|].
  rewrite fmap_cons, !count_label_cons, IH1, IH2, IH3.
  destruct c as [label|]; [|done].
  destruct (decide (label ∈ likert_values)) as [Hin|Hn].
  - revert Hin. unfold likert_values. rewrite !elem_of_cons, elem_of_nil.
    intros [-> | [-> | [-> | [-> | [-> | []]]]]];
      repeat match goal with
             | |- context [bool_decide (?a = ?b)] =>
                 let v := eval vm_compute in (bool_decide (a = b)) in
                 change (bool_decide (a = b)) with v
             end;
      repeat split; lia.
  - cbn [mbind option_bind]. rewrite (mapping_unknown _ Hn).
    revert Hn. unfold likert_values. rewrite !not_elem_of_cons.
    intros (H1 & H2 & H3 & H4 & H5 & _).
    rewrite !bool_decide_eq_false_2 by congruence. done.
Qed.

Lemma get0_delete_ne (d : Distribution) (k label : string) :
  k ≠ label → get0 (delete k d) label = get0 d label.
Proof. intros H. unfold get0. by rewrite lookup_delete_ne. Qed.

Lemma get0_delete_eq (d : Distribution) (k : string) : get0 (delete k d) k = 0.
Proof. unfold get0. by rewrite lookup_delete_eq. Qed.

(** X4. Grouping adds counts up: over the same table and selection, and
    with the same exclusion flag, the Positive count of the grouped
    distribution is the sum of the Strongly Agree and Agree counts of the
    ungrouped one, the Negative count the sum of the Strongly Disagree and
    Disagree counts, and the Don't Know counts are equal. *)
Theorem grouping_adds_counts (df : DataFrame) (cols : list string)
    (sers : list Series) (exclude_dont_know : bool) :
  Forall2 (fun col s => getitem df col = Ok s) cols sers →
  ∃ grouped ungrouped : Distribution,
    calculate_response_distribution df cols true exclude_dont_know = Ok grouped
    ∧ calculate_response_distribution df cols false exclude_dont_know = Ok ungrouped
    ∧ get0 grouped "Positive"
      = get0 ungrouped "Strongly Agree" + get0 ungrouped "Agree"
    ∧ get0 grouped "Negative"
      = get0 ungrouped "Strongly Disagree" + get0 ungrouped "Disagree"
    ∧ get0 grouped "Don't Know" = get0 ungrouped "Don't Know".
Proof.
  intros H.
  pose proof (calculate_response_distribution_pool df true false cols sers H) as Hg.
  pose proof (calculate_response_distribution_pool df false false cols sers H) as Hu.
  rewrite series_map_concat in Hg. rewrite ungrouped_concat in Hu.
  destruct (count_label_grouped (concat (dropna <$> sers))) as (H1 & H2 & H3).
  destruct exclude_dont_know.
  - rewrite !calculate_excluding_eq, Hg, Hu. do 2 eexists.
    split; [reflexivity|]. split; [reflexivity|].
    rewrite !get0_delete_ne by done. rewrite !get0_delete_eq.
    by rewrite !value_counts_get0.
  - rewrite Hg, Hu. do 2 eexists.
    split; [reflexivity|]. split; [reflexivity|].
    by rewrite !value_counts_get0.
Qed.

Lemma grouping_adds_counts_witness :
  ∃ grouped ungrouped : Distribution,
    calculate_response_distribution scenario_df ["Our customers come first"]
      true true = Ok grouped
    ∧ calculate_response_distribution scenario_df ["Our customers come first"]
        false true = Ok ungrouped
    ∧ get0 grouped "Positive"
      = get0 ungrouped "Strongly Agree" + get0 ungrouped "Agree"
    ∧ get0 grouped "Negative"
      = get0 ungrouped "Strongly Disagree" + get0 ungrouped "Disagree"
    ∧ get0 grouped "Don't Know" = get0 ungrouped "Don't Know".
Proof.
  apply (grouping_adds_counts scenario_df ["Our customers come first"]
           [[Some "Agree"; Some "Agree"; Some "Disagree"; Some "Don't Know"]] true).
  repeat constructor.
Defined.

(** ** The selected questions *)

Lemma selected_questions_concat (question_categories : categories_dict)
    (selected_categories : list string) :
  selected_questions question_categories selected_categories
  = concat (map (dict_get question_categories) selected_categories).
Proof.
  unfold selected_questions.
  assert (∀ cats acc,
            fold_left (fun selected cat => selected ++ dict_get question_categories cat)
                      cats acc
            = acc ++ concat (map (dict_get question_categories) cats)) as H.
  { induction cats as [|cat cats IH]; intros acc; simpl.
    - by rewrite app_nil_r.
    - by rewrite IH, app_assoc. }
  apply (H selected_categories []).
Qed.

Lemma dict_get_nonempty (f : string → list string) (names : list string)
    (cat : string) :
  dict_get (List.filter (fun '(_, v) => match v with [] => false | _ => true end)
              (map (fun k => (k, f k)) names)) cat
  = if decide (cat ∈ names) then f cat else [].
Proof.
  unfold dict_get. induction names as [|k names IH]; [reflexivity|].
  cbn [map List.filter].
  destruct (decide (cat ∈ k :: names)) as [Hin|Hnin].
  - apply elem_of_cons in Hin. destruct (f k) as [|x v] eqn:Hk.
    + rewrite IH. destruct (decide (cat ∈ names)) as [|Hn]; [done|].
      destruct Hin as [->|?]; [by rewrite Hk | done].
    + cbn [List.find]. destruct (String.eqb_spec k cat) as [->|Hne].
      * by rewrite Hk.
      * rewrite IH. destruct (decide (cat ∈ names)) as [|Hn]; [done|].
        destruct Hin as [->|?]; done.
  - apply not_elem_of_cons in Hnin as [Hne Hnin]. destruct (f k) as [|x v].
    + rewrite IH. by rewrite decide_False.
    + cbn [List.find]. destruct (String.eqb_spec k cat) as [->|_]; [done|].
      rewrite IH. by rewrite decide_False.
Qed.

Lemma spec_assigned_outside (likert_cols : list string) (cat : string) :
  cat ∉ spec_categories → spec_assigned likert_cols cat = [].
Proof.
  intros Hcat. unfold spec_assigned.
  induction likert_cols as [|col cols IH]; [reflexivity|]. simpl.
  destruct (String.eqb_spec (spec_category col) cat) as [<-|_]; [|exact IH].
  destruct Hcat. apply spec_category_range.
Qed.

Lemma dict_get_categorize (likert_cols : list string) (cat : string) :
  dict_get (categorize_questions likert_cols) cat
  = List.filter (fun col => String.eqb (category_key col) cat) likert_cols.
Proof.
  rewrite categorize_questions_map. unfold spec_category_map.
  rewrite dict_get_nonempty.
  transitivity (spec_assigned likert_cols cat).
  - destruct (decide (cat ∈ spec_categories)); [done|].
    by rewrite spec_assigned_outside.
  - unfold spec_assigned. apply filter_ext. intros col.
    by rewrite category_key_spec.
Qed.

(** X5. A column is among the selected questions exactly when it is one of
    the Likert columns that were categorized and the category its text
    falls in is selected; a selected name that is no category of the map
    adds nothing. *)
Theorem selected_questions_iff (likert_cols selected_categories : list string)
    (col : string) :
  col ∈ selected_questions (categorize_questions likert_cols) selected_categories
  ↔ col ∈ likert_cols ∧ category_key col ∈ selected_categories.
Proof.
  rewrite selected_questions_concat, list_elem_of_In, in_concat. split.
  - intros (l & Hl & Hcol). apply in_map_iff in Hl as (cat & <- & Hcat).
    rewrite dict_get_categorize in Hcol. apply filter_In in Hcol as [Hin Heq].
    apply String.eqb_eq in Heq. subst cat.
    split; by apply list_elem_of_In.
  - intros [Hin Hcat].
    exists (dict_get (categorize_questions likert_cols) (category_key col)).
    split.
    + apply in_map_iff. exists (category_key col).
      split; [done|]. by apply list_elem_of_In.
    + rewrite dict_get_categorize. apply filter_In.
      split; [by apply list_elem_of_In | apply String.eqb_refl].
Qed.

Lemma List_filter_cons {A} (p : A → bool) (x : A) (l : list A) :
  List.filter p (x :: l) = if p x then x :: List.filter p l else List.filter p l.
Proof. reflexivity. Qed.

Lemma concat_filter_cons (f : string → string) (ks : list string)
    (x : string) (l : list string) :
  NoDup ks →
  (f x ∈ ks →
   concat (map (fun k => List.filter (fun y => String.eqb (f y) k) (x :: l)) ks)
   ≡ₚ x :: concat (map (fun k => List.filter (fun y => String.eqb (f y) k) l) ks))
  ∧ (f x ∉ ks →
     concat (map (fun k => List.filter (fun y => String.eqb (f y) k) (x :: l)) ks)
     = concat (map (fun k => List.filter (fun y => String.eqb (f y) k) l) ks)).
Proof.
  induction 1 as [|k ks Hk Hnd [IHin IHout]].
  - split; [by intros ?%elem_of_nil | done].
  - rewrite !map_cons, !concat_cons, List_filter_cons.
    destruct (String.eqb_spec (f x) k) as [Heq|Hne].
    + split.
      * intros _. rewrite IHout by (by rewrite Heq). done.
      * intros Hout. destruct Hout. apply elem_of_cons. by left.
    + split.
      * intros [?|Hin]%elem_of_cons; [done|].
        rewrite (IHin Hin). by rewrite Permutation_middle.
      * intros Hout. rewrite IHout; [done|].
        intros Hin. apply Hout, elem_of_cons. by right.
Qed.

Lemma concat_filter_partition (f : string → string) (ks l : list string) :
  NoDup ks → (∀ x, x ∈ l → f x ∈ ks) →
  concat (map (fun k => List.filter (fun y => String.eqb (f y) k) l) ks) ≡ₚ l.
Proof.
  intros Hnd. induction l as [|x l IH]; intros Hrange.
  - clear. induction ks as [|k ks IH]; [done|exact IH].
  - rewrite (proj1 (concat_filter_cons f ks x l Hnd))
      by (apply Hrange, elem_of_cons; by left).
    constructor. apply IH. intros y Hy. apply Hrange, elem_of_cons. by right.
Qed.

Lemma dict_keys_nonempty (f : string → list string) (names : list string) :
  dict_keys (List.filter (fun '(_, v) => match v with [] => false | _ => true end)
               (map (fun k => (k, f k)) names))
  = List.filter (fun k => match f k with [] => false | _ => true end) names.
Proof.
  unfold dict_keys. induction names as [|k names IH]; [reflexivity|].
  rewrite map_cons, !List_filter_cons. destruct (f k); [exact IH|].
  rewrite map_cons. by rewrite IH.
Qed.

Lemma concat_map_nonempty (f : string → list string) (names : list string) :
  concat (map f (List.filter (fun k => match f k with [] => false | _ => true end)
                   names))
  = concat (map f names).
Proof.
  induction names as [|k names IH]; [reflexivity|].
  rewrite List_filter_cons, (map_cons f k names), concat_cons.
  destruct (f k) eqn:Hk; [exact IH|].
  by rewrite map_cons, concat_cons, Hk, IH.
Qed.

Lemma category_key_range (col : string) : category_key col ∈ spec_categories.
Proof. rewrite category_key_spec. apply spec_category_range. Qed.

(** X6. With every category of the map selected, which is the default of
    the selector, the selected questions are the Likert columns, each as
    many times as it is in the list: categorizing and selecting everything
    loses no question and repeats none. *)
Theorem select_all_categories (likert_cols : list string) :
  selected_questions (categorize_questions likert_cols)
    (dict_keys (categorize_questions likert_cols))
  ≡ₚ likert_cols.
Proof.
  rewrite selected_questions_concat.
  rewrite (map_ext _ _ (dict_get_categorize likert_cols)).
  assert (dict_keys (categorize_questions likert_cols)
          = List.filter
              (fun k => match List.filter (fun col => String.eqb (category_key col) k)
                                likert_cols
                        with [] => false | _ => true end)
              spec_categories) as ->.
  { rewrite categorize_questions_map. unfold spec_category_map.
    rewrite dict_keys_nonempty. apply filter_ext. intros k.
    unfold spec_assigned.
    by rewrite (filter_ext _ _ (fun col => f_equal (fun c => String.eqb c k)
                                              (eq_sym (category_key_spec col)))). }
  rewrite (concat_map_nonempty
             (fun k => List.filter (fun col => String.eqb (category_key col) k)
                         likert_cols)).
  apply (concat_filter_partition category_key).
  - unfold spec_categories. compute_done.
  - intros col _. apply category_key_range.
Qed.

Example selected_questions_subset :
  selected_questions
    (categorize_questions ["We help each other"; "I own my work"; "Customers first"])
    ["Accountability"; "No such category"; "Customer Focused"]
  = ["I own my work"; "Customers first"].
Proof. vm_compute. reflexivity. Qed.

(** ** The row filter *)

Lemma columns_select_rows (mask : list bool) (df : DataFrame) :
  columns (select_rows mask df) = columns df.
Proof.
  unfold columns, select_rows. rewrite map_map. apply map_ext. by intros [name s].
Qed.

Lemma getitem_select_rows (mask : list bool) (df : DataFrame) (col : string) :
  getitem (select_rows mask df) col = select mask <$> getitem df col.
Proof.
  induction df as [|[name s] df IH]; [reflexivity|]. simpl.
  by destruct (String.eqb name col).
Qed.

Lemma isin_options (s : Series) :
  isin s (tolist_str (unique (dropna s))) = map notna s.
Proof.
  unfold isin. apply map_ext_in. intros [v|] Hin; [|reflexivity]. simpl.
  apply bool_decide_eq_true.
  rewrite elem_of_tolist_str, elem_of_unique, elem_of_dropna.
  split; [by apply list_elem_of_In | by eexists].
Qed.

Lemma mask_and_map (f g : cell → bool) (s1 s2 : Series) :
  mask_and (map f s1) (map g s2) = zip_with (fun a b => f a && g b) s1 s2.
Proof.
  unfold mask_and. revert s2.
  induction s1 as [|a s1 IH]; intros [|b s2]; simpl; try done.
  by rewrite IH.
Qed.

(** X7. With every option of both filters selected, which is their
    default, the rows kept are those whose Department and Tenure are both
    present: a respondent with either cell missing is left out of the
    filtered table, hence of every chart, whatever is selected. *)
Theorem default_filters_keep_present (df : DataFrame) (department tenure : Series) :
  getitem df "Department" = Ok department →
  getitem df "Tenure" = Ok tenure →
  ∃ departments tenure_options : list string,
    sidebar_filters df = Ok (departments, tenure_options)
    ∧ filter_data df departments tenure_options
      = Ok (select_rows (zip_with (fun d t => notna d && notna t) department tenure)
              df).
Proof.
  intros Hd Ht. unfold sidebar_filters, filter_options, filter_data.
  rewrite Hd, Ht. do 2 eexists. split; [reflexivity|].
  simpl. by rewrite !isin_options, mask_and_map.
Qed.

Lemma default_filters_keep_present_witness :
  ∃ departments tenure_options : list string,
    sidebar_filters missing_segment_df = Ok (departments, tenure_options)
    ∧ filter_data missing_segment_df departments tenure_options
      = Ok (select_rows
              (zip_with (fun d t => notna d && notna t)
                 [Some "Eng"; None; Some "Ops"] [Some "1y"; Some "2y"; None])
              missing_segment_df).
Proof.
  apply (default_filters_keep_present missing_segment_df); reflexivity.
Defined.

Example default_filters_drop_rows :
  filter_data missing_segment_df ["Eng"; "Ops"] ["1y"; "2y"]
  = Ok [("Department", [Some "Eng"]); ("Tenure", [Some "1y"]);
        ("Our customers come first", [Some "Agree"])].
Proof. reflexivity. Qed.

Lemma select_none (mask : list bool) (s : Series) :
  Forall (fun b => b = false) mask → select mask s = [].
Proof.
  unfold select. intros H. revert s.
  induction H as [|b mask -> _ IH]; intros [|c s]; simpl; done.
Qed.

Lemma isin_nil (s : Series) : Forall (fun b => b = false) (isin s []).
Proof.
  unfold isin. apply Forall_forall. intros b Hb.
  apply list_elem_of_In, in_map_iff in Hb as ([v|] & <- & _); [|done].
  apply bool_decide_eq_false. apply not_elem_of_nil.
Qed.

Lemma mask_and_false_l (m1 m2 : list bool) :
  Forall (fun b => b = false) m1 → Forall (fun b => b = false) (mask_and m1 m2).
Proof.
  unfold mask_and. intros H. revert m2.
  induction H as [|b m1 -> _ IH]; intros [|b2 m2]; simpl; constructor; auto.
Qed.

Lemma mask_and_false_r (m1 m2 : list bool) :
  Forall (fun b => b = false) m2 → Forall (fun b => b = false) (mask_and m1 m2).
Proof.
  unfold mask_and. intros H. revert m1.
  induction H as [|b m2 -> _ IH]; intros [|b1 m1]; simpl; constructor; auto.
  apply andb_false_r.
Qed.

Lemma calculate_on_empty_columns (df : DataFrame) (cols : list string)
    (gm ex : bool) :
  Forall (fun col => getitem df col = Ok []) cols →
  calculate_response_distribution df cols gm ex = Ok ∅.
Proof.
  intros H.
  assert (Forall2 (fun col s => getitem df col = Ok s) cols
                  ((fun _ => []) <$> cols)) as H2.
  { induction H as [|col cols Hcol _ IH]; constructor; done. }
  rewrite (calculate_response_distribution_pool df gm ex cols _ H2).
  f_equal. clear.
  induction cols as [|col cols IH]; [reflexivity|].
  rewrite !fmap_cons. cbn [concat].
  replace (group_responses (dropna []) gm ex) with (@nil cell)
    by (by destruct gm, ex).
  exact IH.
Qed.

(** X8. When no department is selected, or no tenure, the filtered table
    keeps every column and no row, and the distribution of any selection
    of its columns is the empty one: nothing raises. *)
Theorem empty_selection_empty_distribution (df : DataFrame)
    (department tenure : Series) (selected_departments selected_tenure : list string)
    (cols : list string) (group_mode exclude_dont_know : bool) :
  getitem df "Department" = Ok department →
  getitem df "Tenure" = Ok tenure →
  Forall (fun col => col ∈ columns df) cols →
  selected_departments = [] ∨ selected_tenure = [] →
  ∃ filtered_df : DataFrame,
    filter_data df selected_departments selected_tenure = Ok filtered_df
    ∧ columns filtered_df = columns df
    ∧ Forall (fun '(_, s) => s = []) filtered_df
    ∧ calculate_response_distribution filtered_df cols group_mode exclude_dont_know
      = Ok ∅.
Proof.
  intros Hd Ht Hcols Hsel. unfold filter_data. rewrite Hd, Ht. simpl.
  set (mask := mask_and _ _).
  assert (Forall (fun b => b = false) mask) as Hmask.
  { destruct Hsel as [-> | ->].
    - apply mask_and_false_l, isin_nil.
    - apply mask_and_false_r, isin_nil. }
  eexists. split; [reflexivity|]. split; [apply columns_select_rows|]. split.
  - unfold select_rows. apply Forall_forall. intros [name s] Hin.
    apply list_elem_of_In, in_map_iff in Hin as ([name' s'] & [= <- <-] & _).
    by apply select_none.
  - apply calculate_on_empty_columns.
    eapply Forall_impl; [exact Hcols|]. intros col [s Hs]%getitem_columns.
    rewrite getitem_select_rows, Hs. simpl. f_equal. by apply select_none.
Qed.

Lemma empty_selection_empty_distribution_witness :
  ∃ filtered_df : DataFrame,
    filter_data scenario_df ["Eng"; "Ops"] [] = Ok filtered_df
    ∧ columns filtered_df = columns scenario_df
    ∧ Forall (fun '(_, s) => s = []) filtered_df
    ∧ calculate_response_distribution filtered_df ["Our customers come first"]
        true false = Ok ∅.
Proof.
  apply (empty_selection_empty_distribution scenario_df
           [Some "Eng"; Some "Eng"; Some "Ops"; Some "Ops"]
           [Some "1y"; Some "2y"; Some "1y"; Some "2y"]).
  - reflexivity.
  - reflexivity.
  - repeat constructor.
  - by right.
Defined.

(** ** Sums of counts *)

Lemma sum_counts_delete (d : Distribution) (k : string) (labels : list string) :
  k ∉ labels → sum_counts (delete k d) labels = sum_counts d labels.
Proof.
  induction labels as [|l labels IH]; [reflexivity|].
  rewrite not_elem_of_cons. intros [Hne Hnin]. simpl.
  by rewrite get0_delete_ne, IH.
Qed.

Lemma sum_counts_le (d : Distribution) (labels : list string) :
  NoDup labels → (sum_counts d labels ≤ dist_sum d)%nat.
Proof.
  intros Hnd. revert d.
  induction Hnd as [|k labels Hk _ IH]; intros d; simpl; [lia|].
  unfold get0 at 1. destruct (d !! k) as [n|] eqn:Hd; simpl.
  - rewrite (dist_sum_delete d k n Hd), <- (sum_counts_delete d k labels Hk).
    specialize (IH (delete k d)). lia.
  - apply IH.
Qed.

Lemma sum_counts_all (d : Distribution) (labels : list string) :
  NoDup labels → (∀ k, is_Some (d !! k) → k ∈ labels) →
  sum_counts d labels = dist_sum d.
Proof.
  intros Hnd. revert d.
  induction Hnd as [|k labels Hk _ IH]; intros d Hdom; simpl.
  - assert (d = ∅) as ->; [|by rewrite dist_sum_empty].
    apply map_empty. intros i. apply eq_None_not_Some.
    intros Hi%Hdom. by apply elem_of_nil in Hi.
  - assert (∀ i, is_Some (delete k d !! i) → i ∈ labels) as Hdom'.
    { intros i [x Hi]. apply lookup_delete_Some in Hi as [Hne Hi].
      assert (i ∈ k :: labels) as [->|?]%elem_of_cons by (apply Hdom; by eexists);
        done. }
    rewrite <- (sum_counts_delete d k labels Hk), (IH _ Hdom').
    unfold get0. destruct (d !! k) as [n|] eqn:Hd; simpl.
    + by rewrite (dist_sum_delete d k n Hd).
    + by rewrite delete_id.
Qed.

Lemma length_tolist_str (s : Series) : (length (tolist_str s) ≤ length s)%nat.
Proof.
  unfold tolist_str. induction s as [|[v|] s IH]; [done| |].
  - change (S (length (omap id s)) ≤ S (length s))%nat. lia.
  - change (length (omap id s) ≤ S (length s))%nat. lia.
Qed.

Lemma sum_counts_value_counts (values : list cell) (labels : list string) :
  NoDup labels → (sum_counts (value_counts values) labels ≤ length values)%nat.
Proof.
  intros Hnd. pose proof (sum_counts_le (value_counts values) labels Hnd).
  rewrite dist_sum_value_counts in H. pose proof (length_tolist_str values). lia.
Qed.

(** ** The bars of a chart *)

Lemma elem_of_ordered_distribution (order : list string) (d : Distribution)
    (label : string) (n : nat) :
  (label, n) ∈ ordered_distribution order d ↔ label ∈ order ∧ d !! label = Some n.
Proof.
  unfold ordered_distribution. rewrite list_elem_of_omap. split.
  - intros (o & Ho & Hd). destruct (d !! o) as [m|] eqn:E; [|done].
    simpl in Hd. by injection Hd as -> ->.
  - intros [Ho Hd]. exists label. split; [done|]. by rewrite Hd.
Qed.

Lemma sum_ordered_distribution (order : list string) (d : Distribution) :
  sum_list (snd <$> ordered_distribution order d) = sum_counts d order.
Proof.
  unfold ordered_distribution, sum_counts.
  induction order as [|o order IH]; [reflexivity|].
  cbn [omap list_omap foldr]. unfold get0 at 1.
  destruct (d !! o) as [n|]; simpl.
  - f_equal. exact IH.
  - exact IH.
Qed.

Lemma mapping_range (label r : string) :
  mapping label = Some r → r ∈ ["Positive"; "Negative"; "Don't Know"].
Proof.
  intros H. pose proof (mapping_Some _ _ H) as Hin. revert H Hin.
  unfold likert_values. rewrite !elem_of_cons, elem_of_nil.
  intros H [-> | [-> | [-> | [-> | [-> | []]]]]]; injection H as <-; compute_done.
Qed.

Lemma group_responses_labels (s : Series) (gm ex : bool) (label : string) :
  (gm = true ∨ ∀ v, Some v ∈ s → v ∈ likert_values) →
  Some label ∈ group_responses (dropna s) gm ex →
  label ∈ response_order gm ex.
Proof.
  intros Hdata Hin.
  assert (label ∈ response_order gm false) as Hord.
  { assert (Some label ∈ group_responses (dropna s) gm false) as Hin'.
    { destruct ex; [|done]. rewrite group_responses_exclude in Hin.
      by apply list_elem_of_In, filter_In, proj1, list_elem_of_In in Hin. }
    destruct gm.
    - rewrite grouped_keep_eq in Hin'.
      apply list_elem_of_fmap in Hin' as ([v|] & Hv & _); [|done].
      symmetry in Hv. apply mapping_range in Hv. revert Hv.
      simpl. rewrite !elem_of_cons. tauto.
    - destruct Hdata as [|Hdata]; [done|].
      apply elem_of_dropna in Hin' as [Hin' _]. apply Hdata in Hin'.
      revert Hin'. unfold likert_values. simpl. rewrite !elem_of_cons. tauto. }
  destruct ex; [|done].
  assert (label ≠ "Don't Know") as Hne.
  { intros ->. by apply group_responses_no_dont_know in Hin. }
  revert Hord. destruct gm; simpl; rewrite !elem_of_cons, !elem_of_nil; tauto.
Qed.

(** X9. In grouped mode, and in ungrouped mode when every response of the
    selected columns is one of the five labels, the reordered distribution
    of a chart holds every entry of the distribution, so that its counts
    add up to the total the percentages are taken of. *)
Theorem ordered_distribution_complete (df : DataFrame) (cols : list string)
    (sers : list Series) (group_mode exclude_dont_know : bool) :
  Forall2 (fun col s => getitem df col = Ok s) cols sers →
  (group_mode = true
   ∨ ∀ s v, s ∈ sers → Some v ∈ s → v ∈ likert_values) →
  ∃ d : Distribution,
    calculate_response_distribution df cols group_mode exclude_dont_know = Ok d
    ∧ (∀ label n,
         d !! label = Some n →
         (label, n) ∈ ordered_distribution
                         (response_order group_mode exclude_dont_know) d)
    ∧ sum_list (snd <$> ordered_distribution
                          (response_order group_mode exclude_dont_know) d)
      = dist_sum d.
Proof.
  intros H Hdata. eexists. split; [by apply calculate_response_distribution_pool|].
  set (pooled := concat _).
  assert (∀ label, is_Some (value_counts pooled !! label) →
                   label ∈ response_order group_mode exclude_dont_know) as Hdom.
  { intros label Hl.
    assert (Some label ∈ pooled) as Hin.
    { destruct (decide (Some label ∈ pooled)) as [|Hn]; [done|].
      apply value_counts_lookup_None in Hn. rewrite Hn in Hl. by destruct Hl. }
    apply list_elem_of_In, in_concat in Hin as (l & Hl' & Hin).
    apply list_elem_of_In, list_elem_of_fmap in Hl' as (s & -> & Hs).
    apply (group_responses_labels s group_mode exclude_dont_know).
    - destruct Hdata as [|Hdata]; [by left|]. right. intros v. by apply Hdata.
    - by apply list_elem_of_In. }
  split.
  - intros label n Hl. apply elem_of_ordered_distribution. split; [|done].
    apply Hdom. by eexists.
  - rewrite sum_ordered_distribution. apply sum_counts_all; [|done].
    destruct group_mode, exclude_dont_know; compute_done.
Qed.

Lemma ordered_distribution_complete_witness :
  ∃ d : Distribution,
    calculate_response_distribution scenario_df ["Our customers come first"]
      false false = Ok d
    ∧ (∀ label n,
         d !! label = Some n →
         (label, n) ∈ ordered_distribution (response_order false false) d)
    ∧ sum_list (snd <$> ordered_distribution (response_order false false) d)
      = dist_sum d.
Proof.
  apply (ordered_distribution_complete scenario_df ["Our customers come first"]
           [[Some "Agree"; Some "Agree"; Some "Disagree"; Some "Don't Know"]]).
  - repeat constructor.
  - right. intros s v ->%list_elem_of_singleton Hv.
    rewrite !elem_of_cons, elem_of_nil in Hv.
    decompose [or] Hv; try done;
      match goal with H : Some _ = Some _ |- _ => injection H as -> end;
      compute_done.
Defined.

Example ordered_distribution_stray :
  ordered_distribution (response_order false false)
    {[ "Agree" := 2; "see comment" := 1; "Strongly Agree" := 1 ]}
  = [("Strongly Agree", 1); ("Agree", 2)].
Proof. vm_compute. reflexivity. Qed.

(** ** The views of one question *)

(** X10. The detail view divides by the number of responses without a
    guard; for a question of the table this never divides by zero: either
    the grouped series is empty and no metric is computed, or both rates
    have a value, over a positive total that is the length of the grouped
    series, and their two counts together do not exceed it. *)
Theorem question_metrics_safe (filtered_df : DataFrame) (question : string)
    (s : Series) (group_mode exclude_dont_know : bool) :
  getitem filtered_df question = Ok s →
  let grouped := group_responses (dropna s) group_mode exclude_dont_know in
  (grouped = [] →
   question_metrics filtered_df question group_mode exclude_dont_know = Ok None)
  ∧ (grouped ≠ [] →
     ∃ count1 count2 : nat,
       question_metrics filtered_df question group_mode exclude_dont_know
       = Ok (Some (length grouped, Some (PctOf count1 (length grouped)),
                   Some (PctOf count2 (length grouped))))
       ∧ 0 < length grouped
       ∧ (count1 + count2 ≤ length grouped)%nat).
Proof.
  intros Hs grouped. unfold question_metrics. rewrite Hs.
  cbn [mbind result_bind]. fold grouped. split.
  - by intros ->.
  - intros Hne. destruct grouped as [|c g] eqn:Hg; [done|]. rewrite <- Hg.
    assert (0 < length grouped) as Hpos by (rewrite Hg; simpl; lia).
    assert (Nat.eqb (length grouped) 0 = false) as Hq by (apply Nat.eqb_neq; lia).
    destruct group_mode.
    + exists (get0 (value_counts grouped) "Positive"),
             (get0 (value_counts grouped) "Negative").
      unfold quotient. rewrite Hq. split; [reflexivity|]. split; [done|].
      pose proof (sum_counts_value_counts grouped ["Positive"; "Negative"]
                    ltac:(compute_done)) as H.
      simpl in H. lia.
    + exists (get0 (value_counts grouped) "Strongly Agree"
              + get0 (value_counts grouped) "Agree"),
             (get0 (value_counts grouped) "Strongly Disagree"
              + get0 (value_counts grouped) "Disagree").
      unfold quotient. rewrite Hq. split; [reflexivity|]. split; [done|].
      pose proof (sum_counts_value_counts grouped
                    ["Strongly Agree"; "Agree"; "Strongly Disagree"; "Disagree"]
                    ltac:(compute_done)) as H.
      simpl in H. lia.
Qed.

Lemma question_metrics_safe_witness :
  let grouped :=
    group_responses
      (dropna [Some "Agree"; Some "Agree"; Some "Disagree"; Some "Don't Know"])
      true true in
  (grouped = [] →
   question_metrics scenario_df "Our customers come first" true true = Ok None)
  ∧ (grouped ≠ [] →
     ∃ count1 count2 : nat,
       question_metrics scenario_df "Our customers come first" true true
       = Ok (Some (length grouped, Some (PctOf count1 (length grouped)),
                   Some (PctOf count2 (length grouped))))
       ∧ 0 < length grouped
       ∧ (count1 + count2 ≤ length grouped)%nat).
Proof.
  apply (question_metrics_safe scenario_df "Our customers come first").
  reflexivity.
Defined.

Example question_metrics_scenario :
  question_metrics scenario_df "Our customers come first" true true
  = Ok (Some (3, Some (PctOf 2 3), Some (PctOf 1 3))).
Proof. vm_compute. reflexivity. Qed.

(** X11. A row of the heatmap by question exists exactly when the grouped
    series of the question is not empty; each of its cells is then the
    count of a label of the display order over the length of that series,
    which is positive, so the guard of the division never takes its zero
    arm; the counts of a row add up to at most that length. *)
Theorem heatmap_row_cells (filtered_df : DataFrame) (question : string)
    (s : Series) (group_mode exclude_dont_know : bool) :
  getitem filtered_df question = Ok s →
  let grouped := group_responses (dropna s) group_mode exclude_dont_know in
  let order := response_order group_mode exclude_dont_know in
  (grouped = [] →
   heatmap_row filtered_df question group_mode exclude_dont_know = Ok None)
  ∧ (grouped ≠ [] →
     heatmap_row filtered_df question group_mode exclude_dont_know
     = Ok (Some (map (fun label =>
                        (label, PctOf (count_label label grouped) (length grouped)))
                     order))
     ∧ 0 < length grouped
     ∧ (sum_list (map (fun label => count_label label grouped) order)
        ≤ length grouped)%nat).
Proof.
  intros Hs grouped order. unfold heatmap_row. rewrite Hs.
  cbn [mbind result_bind]. fold grouped. fold order. split.
  - by intros ->.
  - intros Hne. destruct grouped as [|c g] eqn:Hg; [done|]. rewrite <- Hg.
    assert (0 < length grouped) as Hpos by (rewrite Hg; simpl; lia).
    split; [|split; [done|]].
    + cbn [mret result_ret]. do 2 f_equal. apply map_ext. intros label.
      rewrite value_counts_get0. unfold pct.
      by rewrite (proj2 (Nat.ltb_lt _ _) Hpos).
    + assert (NoDup order) as Hnd
        by (unfold order; destruct group_mode, exclude_dont_know; compute_done).
      pose proof (sum_counts_value_counts grouped order Hnd) as H.
      assert (sum_counts (value_counts grouped) order
              = sum_list (map (fun label => count_label label grouped) order)) as <-;
        [|done].
      clear. induction order as [|o order IH]; [reflexivity|]. simpl.
      by rewrite value_counts_get0, IH.
Qed.

Lemma heatmap_row_cells_witness :
  let grouped := group_responses (dropna [Some "Agree"; Some "Maybe"; None]) true false in
  let order := response_order true false in
  (grouped = [] → heatmap_row stray_df "Q" true false = Ok None)
  ∧ (grouped ≠ [] →
     heatmap_row stray_df "Q" true false
     = Ok (Some (map (fun label =>
                        (label, PctOf (count_label label grouped) (length grouped)))
                     order))
     ∧ 0 < length grouped
     ∧ (sum_list (map (fun label => count_label label grouped) order)
        ≤ length grouped)%nat).
Proof. apply (heatmap_row_cells stray_df "Q"). reflexivity. Defined.

(** In grouped mode a response outside the five labels is in the total of
    the row and in none of its counts. *)
Example heatmap_row_stray :
  heatmap_row stray_df "Q" true false
  = Ok (Some [("Positive", PctOf 1 2); ("Don't Know", PctOf 0 2);
              ("Negative", PctOf 0 2)]).
Proof. vm_compute. reflexivity. Qed.

(** X12. The breakdowns of one question by department and by tenure pass
    the exclusion flag on: with the flag set, a distribution they show has
    no Don't Know entry. *)
Theorem question_segment_excludes (filtered_df : DataFrame)
    (segment question : string) (group_mode : bool) (value : string)
    (d : Distribution) :
  question_segment_distribution filtered_df segment question group_mode true value
  = Ok (Some d) →
  d !! "Don't Know" = None.
Proof.
  unfold question_segment_distribution.
  destruct (getitem filtered_df segment) as [column|e]; [|done].
  cbn [mbind result_bind].
  destruct (getitem _ question) as [s|e]; [|done].
  cbn [mbind result_bind].
  pose proof (group_responses_no_dont_know (dropna s) group_mode) as Hno.
  destruct (group_responses (dropna s) group_mode true) as [|c g]; [done|].
  intros [= <-]. by apply (value_counts_lookup_None (c :: g)).
Qed.

Lemma question_segment_excludes_witness :
  ({[ "Disagree" := 1 ]} : Distribution) !! "Don't Know" = None.
Proof.
  apply (question_segment_excludes scenario_df "Department"
           "Our customers come first" false "Ops").
  vm_compute. reflexivity.
Defined.

(** ** The question search *)

Lemma lower_append (a b : string) : lower (a +:+ b) = lower a +:+ lower b.
Proof.
  induction a as [|c a IH]; [reflexivity|].
  rewrite append_String. simpl. by rewrite IH.
Qed.

Lemma str_in_lower (needle hay : string) :
  str_in needle hay = true → str_in (lower needle) (lower hay) = true.
Proof.
  rewrite !str_in_spec. intros (before & after & ->).
  exists (lower before), (lower after). by rewrite !lower_append.
Qed.

Lemma str_in_empty (hay : string) : str_in "" hay = true.
Proof. apply str_in_spec. by exists "", hay. Qed.

(** X13. The search keeps, in their order, the selected questions whose
    lower-cased text contains the lower-cased query, the empty query
    included (it keeps them all); a question that contains the query as
    typed is therefore always kept. *)
Theorem search_questions_iff (search_query : string) (selected : list string)
    (q : string) :
  (q ∈ search_questions search_query selected
   ↔ q ∈ selected ∧ str_in (lower search_query) (lower q) = true)
  ∧ (q ∈ selected → str_in search_query q = true →
     q ∈ search_questions search_query selected)
  ∧ search_questions search_query selected
    = List.filter (fun q => str_in (lower search_query) (lower q)) selected.
Proof.
  assert (search_questions search_query selected
          = List.filter (fun q => str_in (lower search_query) (lower q)) selected)
    as Heq.
  { destruct search_query as [|c query]; [|reflexivity].
    simpl. symmetry. apply filter_all. intros x _. apply str_in_empty. }
  assert (q ∈ search_questions search_query selected
          ↔ q ∈ selected ∧ str_in (lower search_query) (lower q) = true) as Hiff.
  { by rewrite Heq, list_elem_of_In, filter_In, <- list_elem_of_In. }
  split; [done|]. split; [|done].
  intros Hin Hq. apply Hiff. split; [done|]. by apply str_in_lower.
Qed.

Lemma search_questions_iff_witness :
  "We Help Customers" ∈ search_questions "help" ["I own it"; "We Help Customers"].
Proof.
  apply (proj2 (proj1 (search_questions_iff "help" ["I own it"; "We Help Customers"]
                         "We Help Customers"))).
  split; [|reflexivity]. apply elem_of_cons. right. apply elem_of_cons. by left.
Defined.

(** ** The password gate *)

Lemma run_snoc (secret : string) (events : list event) (ev : event)
    (st : session_state) :
  run secret (events ++ [ev]) st = (run secret events st ≫= fun st' => handle secret st' ev).
Proof. unfold run. by rewrite fold_left_app. Qed.

(** X14. From a new session and after any sequence of password entries
    and logouts, no lookup of the session state fails, access is granted
    exactly when the last thing done was to enter the right password, and
    the session state never holds the right password. *)
Theorem password_gate (secret : string) (events : list event) :
  ∃ st : session_state,
    run secret events new_session = Ok st
    ∧ (check_password st = true ↔ last events = Some (Enter secret))
    ∧ ss_password st ≠ Some secret.
Proof.
  induction events as [|ev events (st & Hrun & Hcheck & Hpw)] using rev_ind.
  - exists new_session. split; [reflexivity|]. split; [|done]. simpl. split; done.
  - rewrite run_snoc, Hrun, last_snoc. cbn [mbind result_bind].
    destruct ev as [password|]; simpl.
    + unfold password_entered. simpl.
      destruct (String.eqb_spec password secret) as [->|Hne].
      * eexists. split; [reflexivity|]. simpl. split; [|done]. split; done.
      * eexists. split; [reflexivity|]. simpl. split; [|congruence].
        split; [done|]. intros [= ?]. done.
    + eexists. split; [reflexivity|]. simpl. split; [|done]. split; done.
Qed.

Example password_gate_trace :
  check_password <$> run "s3cret" [Enter "guess"; Enter "s3cret"] new_session = Ok true
  ∧ check_password <$> run "s3cret" [Enter "s3cret"; Logout] new_session = Ok false
  ∧ ss_password <$> run "s3cret" [Enter "guess"] new_session = Ok (Some "guess")
  ∧ password_entered "s3cret" new_session = Raise (KeyError "password").
Proof. repeat split; reflexivity. Qed.

(** ** [wrap_text] *)

Lemma length_append (a b : string) :
  String.length (a +:+ b) = String.length a + String.length b.
Proof.
  induction a as [|c a IH]; [reflexivity|].
  rewrite append_String. simpl. by rewrite IH.
Qed.

Lemma str_join_cons (sep part : string) (parts : list string) :
  parts ≠ [] →
  str_join sep (part :: parts) = part +:+ sep +:+ str_join sep parts.
Proof. by destruct parts. Qed.

Lemma length_str_join_snoc (parts : list string) (word : string) :
  parts ≠ [] →
  String.length (str_join " " (parts ++ [word]))
  = String.length (str_join " " parts) + 1 + String.length word.
Proof.
  induction parts as [|p parts IH]; [done|]. intros _.
  destruct parts as [|p' parts].
  - simpl. rewrite !length_append. simpl. lia.
  - rewrite <- app_comm_cons, str_join_cons by done.
    rewrite (str_join_cons " " p (p' :: parts)) by done.
    rewrite !length_append, IH by done. lia.
Qed.

Lemma flush_line_groups (max_len : nat) (st : wrap_state)
    (groups : list (list string)) :
  lines st = map (str_join " ") groups →
  Forall (fun g => g ≠ []) groups →
  Forall (fits max_len) groups →
  (String.length (str_join " " (current_line st)) ≤ current_length st)%nat →
  (2 ≤ length (current_line st) → current_length st ≤ max_len)%nat →
  ∃ groups' : list (list string),
    flush_line (lines st) (current_line st) = map (str_join " ") groups'
    ∧ concat groups' = concat groups ++ current_line st
    ∧ Forall (fun g => g ≠ []) groups'
    ∧ Forall (fits max_len) groups'.
Proof.
  intros Hlines Hne Hfits Hlen Hmax.
  destruct (current_line st) as [|w cur] eqn:Hcur.
  - exists groups. by rewrite app_nil_r.
  - exists (groups ++ [w :: cur]). split; [|split; [|split]].
    + simpl. by rewrite Hlines, map_app.
    + rewrite concat_app. simpl. by rewrite app_nil_r.
    + apply Forall_app. split; [done|]. by constructor.
    + apply Forall_app. split; [done|]. constructor; [|done].
      unfold fits. destruct cur as [|w' cur]; [by left|].
      right. simpl in Hmax. lia.
Qed.

Lemma wrap_step_inv (max_len : nat) (consumed : list string) (st : wrap_state)
    (word : string) :
  wrap_inv max_len consumed st →
  wrap_inv max_len (consumed ++ [word]) (wrap_step max_len st word).
Proof.
  intros (groups & Hlines & Hcat & Hne & Hfits & Hlen & Hmax).
  unfold wrap_step.
  destruct (Nat.leb_spec (current_length st + String.length word + 1) max_len)
    as [Hle|Hgt].
  - exists groups. simpl. split; [done|]. split; [by rewrite app_assoc, Hcat|].
    split; [done|]. split; [done|]. split; [|lia].
    destruct (current_line st) as [|w cur] eqn:Hcur.
    + simpl. lia.
    + rewrite length_str_join_snoc by done. lia.
  - destruct (flush_line_groups max_len st groups Hlines Hne Hfits Hlen Hmax)
      as (groups' & Hflush & Hcat' & Hne' & Hfits').
    exists groups'. simpl. split; [done|].
    split; [by rewrite Hcat', Hcat|]. split; [done|]. split; [done|].
    split; lia.
Qed.

Lemma fold_wrap_step_inv (max_len : nat) (consumed words : list string)
    (st : wrap_state) :
  wrap_inv max_len consumed st →
  wrap_inv max_len (consumed ++ words) (fold_left (wrap_step max_len) words st).
Proof.
  revert consumed st. induction words as [|w words IH]; intros consumed st H.
  - by rewrite app_nil_r.
  - simpl. rewrite (app_assoc consumed [w] words : consumed ++ w :: words = _).
    by apply IH, wrap_step_inv.
Qed.

(** X15. [wrap_text] loses no word and reorders none: its result is the
    lines, joined by the break tag, of consecutive groups of the words of
    the text, each group joined by single spaces; no line is empty, and a
    line is longer than the limit only if it is a single word. *)
Theorem wrap_text_groups (text : string) (max_len : nat) :
  ∃ groups : list (list string),
    concat groups = split text
    ∧ Forall (fun g => g ≠ []) groups
    ∧ Forall (fits max_len) groups
    ∧ wrap_text text max_len = str_join "<br>" (map (str_join " ") groups).
Proof.
  unfold wrap_text.
  pose proof (fold_wrap_step_inv max_len [] (split text)
                {| lines := []; current_line := []; current_length := 0 |}) as H.
  destruct H as (groups & Hlines & Hcat & Hne & Hfits & Hlen & Hmax).
  { exists []. simpl. repeat split; try done. lia. }
  destruct (flush_line_groups max_len _ groups Hlines Hne Hfits Hlen Hmax)
    as (groups' & Hflush & Hcat' & Hne' & Hfits').
  exists groups'. rewrite Hflush, Hcat'. by rewrite Hcat.
Qed.

Example wrap_text_lines :
  wrap_text "  The quick  brown fox jumps over the lazy dog " 12
  = "The quick<br>brown fox<br>jumps over<br>the lazy dog".
Proof. vm_compute. reflexivity. Qed.

(** The first line is closed one character earlier than the others: its
    length counts a separator for its first word too. *)
Example wrap_text_first_line :
  wrap_text "ab cd ef gh" 5 = "ab<br>cd ef<br>gh".
Proof. vm_compute. reflexivity. Qed.

Example wrap_text_long_word :
  wrap_text "a extraordinarily b" 5 = "a<br>extraordinarily<br>b"
  ∧ wrap_text "" 60 = "" ∧ wrap_text "   " 60 = "".
Proof. repeat split; vm_compute; reflexivity. Qed.

Lemma no_space_append (a b : string) :
  no_space (a +:+ b) = no_space a && no_space b.
Proof.
  induction a as [|c a IH]; [reflexivity|].
  rewrite append_String. simpl. by rewrite IH, andb_assoc.
Qed.

Lemma split_from_words (current text : string) (word : string) :
  no_space current = true →
  word ∈ split_from current text → word ≠ "" ∧ no_space word = true.
Proof.
  revert current. induction text as [|c text IH]; intros current Hcur; simpl.
  - destruct current as [|a current]; [by intros ?%elem_of_nil|].
    intros ->%list_elem_of_singleton. done.
  - destruct (is_space c) eqn:Hc.
    + destruct current as [|a current]; [by apply IH|].
      intros [->|Hin]%elem_of_cons; [done|]. by apply (IH "").
    + apply IH. rewrite no_space_append, Hcur. simpl. by rewrite Hc.
Qed.

(** X16. The words [wrap_text] works on are never empty and hold no
    whitespace, and a text without whitespace is its own single word. *)
Theorem split_words (text : string) :
  (∀ word, word ∈ split text → word ≠ "" ∧ no_space word = true)
  ∧ (text ≠ "" → no_space text = true → split text = [text]).
Proof.
  split.
  - intros word. by apply split_from_words.
  - unfold split.
    assert (∀ current rest, no_space rest = true → current +:+ rest ≠ "" →
                            split_from current rest = [current +:+ rest]) as H.
    { intros current rest. revert current.
      induction rest as [|c rest IH]; intros current Hns Hne; simpl.
      - assert (current +:+ "" = current) as Hc
          by (clear; induction current as [|a s IH]; [done|];
              by rewrite append_String, IH).
        rewrite Hc in *. by destruct current.
      - simpl in Hns. apply andb_true_iff in Hns as [Hc Hns].
        apply negb_true_iff in Hc. rewrite Hc.
        assert ((current +:+ String c "") +:+ rest = current +:+ String c rest) as E
          by (clear; induction current as [|a s IH]; [done|];
              by rewrite !append_String, IH).
        rewrite IH, E; [done|done|]. rewrite E. done. }
    intros Hne Hns. by apply (H "" text).
Qed.

Lemma split_words_witness :
  split "survey" = ["survey"].
Proof. apply (proj2 (split_words "survey")); [done | reflexivity]. Defined.

(** ** Loading twice *)

Lemma set_columns_own (df : DataFrame) : set_columns df (columns df) = Ok df.
Proof.
  unfold set_columns, columns. rewrite length_map, Nat.eqb_refl.
  cbn [mret result_ret]. f_equal.
  induction df as [|[name s] df IH]; [reflexivity|]. simpl. by rewrite IH.
Qed.

Lemma rename_label_idemp (label : string) :
  rename_label (rename_label label) = rename_label label.
Proof.
  unfold rename_label.
  destruct (String.eqb label
              "Please check the Department or Team you primarily work with.")
    eqn:E1; [reflexivity|].
  destruct (String.eqb label "How long have you been with Rocscience?") eqn:E2;
    [reflexivity|].
  destruct (String.eqb label "Respondent ID") eqn:E3; [reflexivity|].
  by rewrite E1, E2, E3.
Qed.

Lemma rename_fixed (df : DataFrame) :
  Forall (fun '(name, _) => rename_label name = name) df → rename df = df.
Proof.
  unfold rename. induction 1 as [|[name s] df Hn _ IH]; [reflexivity|].
  simpl. by rewrite Hn, IH.
Qed.

Lemma filter_filter_same {A} (f : A → bool) (l : list A) :
  List.filter f (List.filter f l) = List.filter f l.
Proof.
  induction l as [|x l IH]; [reflexivity|]. simpl.
  destruct (f x) eqn:E; simpl; [|exact IH]. by rewrite E, IH.
Qed.

(** X17. A loaded table is stable under the loader: relabelling it with
    its own labels, renaming and dropping again returns the same table, so
    that no label of a loaded table is one of the three long names that are
    renamed or one of the labels that are dropped. *)
Theorem load_data_stable (df : DataFrame) (questions : list string)
    (loaded : DataFrame) :
  load_data df questions = Ok loaded →
  load_data loaded (columns loaded) = Ok loaded
  ∧ ∀ label, label ∈ columns loaded →
             rename_label label = label ∧ to_drop label = false.
Proof.
  unfold load_data at 1. destruct (set_columns df questions) as [df'|e]; [|done].
  cbn [mbind result_bind mret result_ret]. rewrite drop_to_drop. intros [= <-].
  set (loaded := List.filter _ (rename df')).
  assert (∀ label, label ∈ columns loaded →
                   rename_label label = label ∧ to_drop label = false) as Hlabels.
  { intros label Hin. unfold columns in Hin.
    apply list_elem_of_In, in_map_iff in Hin as ([name s] & <- & Hin).
    apply filter_In in Hin as [Hin Hkeep]. split.
    - unfold rename in Hin. apply in_map_iff in Hin as ([name' s'] & [= <- <-] & _).
      apply rename_label_idemp.
    - simpl. by apply negb_true_iff in Hkeep. }
  split; [|done].
  unfold load_data. rewrite set_columns_own. cbn [mbind result_bind mret result_ret].
  assert (rename loaded = loaded) as ->.
  { apply rename_fixed, Forall_forall. intros [name s] Hin.
    apply Hlabels. unfold columns. apply list_elem_of_In, in_map_iff.
    exists (name, s). split; [done|]. by apply list_elem_of_In. }
  rewrite drop_to_drop. f_equal. apply filter_filter_same.
Qed.

Lemma load_data_stable_witness :
  load_data
    [("Respondent_ID", [Some "1"; Some "2"]);
     ("Department", [Some "Eng"; Some "Ops"]);
     ("Tenure", [Some "1y"; None]);
     ("Our customers come first", [Some "Agree"; Some "Disagree"])]
    (columns
       [("Respondent_ID", [Some "1"; Some "2"]);
        ("Department", [Some "Eng"; Some "Ops"]);
        ("Tenure", [Some "1y"; None]);
        ("Our customers come first", [Some "Agree"; Some "Disagree"])])
  = Ok [("Respondent_ID", [Some "1"; Some "2"]);
        ("Department", [Some "Eng"; Some "Ops"]);
        ("Tenure", [Some "1y"; None]);
        ("Our customers come first", [Some "Agree"; Some "Disagree"])].
Proof.
  apply (proj1 (load_data_stable raw_df raw_questions _ eq_refl)).
Defined.
